(** * scale-down-ecs-instances.py: the scale-down orchestrator

    A shallow embedding of [scale-down-ecs-instances.py].  The script talks to
    two remote services through boto3 clients ([autoscaling] and [ecs]); the
    services are not part of the repository, so they are taken as an
    interface ([Service]) over an arbitrary world state.  Python exceptions
    are an error type, the calls issued to the services are collected in a
    trace, and the module namespace is a table so that names that are never
    bound fail with [NameError] the way the interpreter makes them fail.

    Standard output ([print]) is not modelled. *)

From Stdlib Require Import ZArith List String Bool Lia.
From Stdlib Require Import Sorting.Sorted Sorting.Permutation.
From Stdlib Require Import DecimalString.
Import ListNotations.

Open Scope string_scope.
Open Scope list_scope.
Open Scope Z_scope.

(** ** Data returned by the services *)

(** One entry of [describe_auto_scaling_groups(...)['AutoScalingGroups']]. *)
Record AutoScalingGroup := {
  AutoScalingGroupName : string;
  DesiredCapacity : Z
}.

(** One entry of [describe_container_instances(...)['containerInstances']].
    [registeredAt] is a timestamp; only its order matters. *)
Record ContainerInstance := {
  containerInstanceArn : string;
  ec2InstanceId : string;
  registeredAt : Z;
  runningTasksCount : Z;
  status : string
}.

(** ** Python values the script computes with *)

(** [str(n)] for an [int]. *)
Definition str (n : Z) : string := NilZero.string_of_int (Z.to_int n).

(** Exceptions that can leave a function of the script.  [ClientError]
    stands for whatever a boto3 client method raises, with its error code. *)
Inductive exn :=
| ValueError (msg : string)
| RuntimeError (msg : string)
| NameError (name : string)
| TypeError
| SystemExit (code : option Z)
| ClientError (code : string).

Inductive result (A : Type) :=
| Ok (a : A)
| Raise (e : exn).
Arguments Ok {A} a.
Arguments Raise {A} e.

(** The status the interpreter hands to the operating system: [0] when the
    script runs to its end or leaves through [exit()], the low byte of the
    code given to [exit(n)], and [1] for any other uncaught exception. *)
Definition exit_status {A} (r : result A) : Z :=
  match r with
  | Ok _ => 0
  | Raise (SystemExit None) => 0
  | Raise (SystemExit (Some n)) => n mod 256
  | Raise _ => 1
  end.

(** ** Requests sent to the services *)

Inductive call :=
| DescribeAutoScalingGroups (AutoScalingGroupNames : list string)
| ListContainerInstances (cluster : string)
| DescribeContainerInstances (cluster : string) (containerInstances : list string)
| UpdateContainerInstancesState (cluster : string) (containerInstances : list string)
                                (status : string)
| TerminateInstanceInAutoScalingGroup (InstanceId : string)
                                      (ShouldDecrementDesiredCapacity : bool).

(** The two requests that change the fleet. *)
Definition mutating (c : call) : bool :=
  match c with
  | UpdateContainerInstancesState _ _ _ => true
  | TerminateInstanceInAutoScalingGroup _ _ => true
  | _ => false
  end.

Definition is_terminate (c : call) : bool :=
  match c with
  | TerminateInstanceInAutoScalingGroup _ _ => true
  | _ => false
  end.


Definition is_describe_container_instances (c : call) : bool :=
  match c with
  | DescribeContainerInstances _ _ => true
  | _ => false
  end.

(** The request line 95 sends for one instance. *)
Definition terminate_request (instance_id : string) : call :=
  TerminateInstanceInAutoScalingGroup instance_id true.

(** What a boto3 client method does: it returns the parsed response or
    raises [ClientError] with the service's error code. *)
Inductive reply (A : Type) :=
| Success (a : A)
| Failure (code : string).
Arguments Success {A} a.
Arguments Failure {A} code.

(** The remote side, over a world [W] it owns.  Every method may change the
    world (time passes, tasks stop, instances go away). *)
Record Service (W : Type) := {
  describe_auto_scaling_groups :
    list string -> W -> reply (list AutoScalingGroup) * W;
  list_container_instances :
    string -> W -> reply (list string) * W;
  describe_container_instances :
    string -> list string -> W -> reply (list ContainerInstance) * W;
  update_container_instances_state :
    string -> list string -> string -> W -> reply unit * W;
  terminate_instance_in_auto_scaling_group :
    string -> bool -> W -> reply unit * W
}.
Arguments describe_auto_scaling_groups {W} _ _ _.
Arguments list_container_instances {W} _ _ _.
Arguments describe_container_instances {W} _ _ _ _.
Arguments update_container_instances_state {W} _ _ _ _ _.
Arguments terminate_instance_in_auto_scaling_group {W} _ _ _ _.

(** ** Pure parts of the script *)

(** [sorted(l, key=key)]: a stable sort, ascending in the key. *)
Fixpoint insert_by {A} (key : A -> Z) (x : A) (l : list A) : list A :=
  match l with
  | [] => [x]
  | y :: l' => if key x <=? key y then x :: y :: l' else y :: insert_by key x l'
  end.

Fixpoint sorted {A} (l : list A) (key : A -> Z) : list A :=
  match l with
  | [] => []
  | x :: l' => insert_by key x (sorted l' key)
  end.

(** The order [sorted] arranges its result in. *)
Definition key_le {A} (key : A -> Z) (a b : A) : Prop := key a <= key b.

(** [l[:stop]]: the first [stop] entries, and for a negative [stop] all but
    the last [-stop]. *)
Definition slice_to {A} (l : list A) (stop : Z) : list A :=
  if 0 <=? stop then firstn (Z.to_nat stop) l
  else firstn (Z.to_nat (Z.of_nat (List.length l) + stop)) l.

(** Lines 51-58 of [get_instances_to_remove], after the two reads. *)
Definition select_instances (raw_instances : list ContainerInstance)
                            (desired_change : Z) : list string :=
  let sorted_instances := sorted raw_instances registeredAt in
  let instances_to_remove := slice_to sorted_instances desired_change in
  let instance_ids := map ec2InstanceId instances_to_remove in
  instance_ids.

(** ** The module namespace *)

(** What a name bound at module level refers to when line 109 calls
    [main]. *)
Inductive global :=
| ImportedModule
| Client
| ArgumentParser
| Namespace
| Def_main
| Def_get_change
| Def_get_instances_to_remove
| Def_drain_instances
| Def_terminate_instance.

(** The names the module binds, in the order it binds them.  Neither
    [sleep] nor [terminate_instances] is among them, and neither is a
    builtin. *)
Definition module_globals : list (string * global) :=
  [ ("argparse", ImportedModule);
    ("boto3", ImportedModule);
    ("autoscaling", Client);
    ("ecs", Client);
    ("main", Def_main);
    ("get_change", Def_get_change);
    ("get_instances_to_remove", Def_get_instances_to_remove);
    ("drain_instances", Def_drain_instances);
    ("terminate_instance", Def_terminate_instance);
    ("parser", ArgumentParser);
    ("args", Namespace) ].

Fixpoint lookup_global_in (ns : list (string * global)) (name : string)
  : option global :=
  match ns with
  | [] => None
  | (n, g) :: ns' => if String.eqb n name then Some g else lookup_global_in ns' name
  end.

Definition lookup_global : string -> option global :=
  lookup_global_in module_globals.

(** ** Computations of the script

    A computation runs from a world and gives its outcome, the world it
    leaves behind and the requests it sent, in the order it sent them. *)
Definition M (W A : Type) : Type := W -> result A * W * list call.

Definition ret {W A} (a : A) : M W A := fun w => (Ok a, w, []).

Definition raise {W A} (e : exn) : M W A := fun w => (Raise e, w, []).

Definition bind {W A B} (m : M W A) (k : A -> M W B) : M W B :=
  fun w =>
    match m w with
    | (Ok a, w1, t1) => let '(r, w2, t2) := k a w1 in (r, w2, t1 ++ t2)
    | (Raise e, w1, t1) => (Raise e, w1, t1)
    end.

(** One client method call: the request goes out, and a failure reply
    surfaces as [ClientError]. *)
Definition invoke {W A} (c : call) (method : W -> reply A * W) : M W A :=
  fun w =>
    match method w with
    | (Success a, w1) => (Ok a, w1, [c])
    | (Failure code, w1) => (Raise (ClientError code), w1, [c])
    end.

Declare Scope py_scope.
Delimit Scope py_scope with py.
Notation "x <- m ;; k" := (bind m (fun x => k))
  (at level 61, m at next level, right associativity) : py_scope.
Notation "m ;; k" := (bind m (fun _ => k))
  (at level 61, right associativity) : py_scope.
Open Scope py_scope.

Definition outcome {W A} (x : result A * W * list call) : result A := fst (fst x).
Definition final {W A} (x : result A * W * list call) : W := snd (fst x).
Definition trace {W A} (x : result A * W * list call) : list call := snd x.

(** [exit()] *)
Definition exit {W A} : M W A := raise (SystemExit None).

Definition fewer_than_message (asg_name : string) (desired_count : Z) : string :=
  ("ASG " ++ asg_name ++ " has fewer than " ++ str desired_count ++ " instances")%string.

Definition drain_timeout_message (seconds : Z) : string :=
  ("Timed out waiting for instances to drain. The script can be " ++
   "safely rerun and will pick up from where it left off. This may " ++
   "be expected behavior if the tasks take longer than " ++
   str seconds ++ " seconds to drain.")%string.

Definition mismatch_message : string :=
  ("Something went wrong and the ASG desired capacity does not match " ++
   "the desired value. Please investigate and improve this script.")%string.

Section Script.
Context {W : Type} (aws : Service W).

(** Lines 21-39. *)
Definition get_change (asg_name : string) (desired_count : Z) : M W Z :=
  asgs <- invoke (DescribeAutoScalingGroups [asg_name])
                 (describe_auto_scaling_groups aws [asg_name]) ;;
  match asgs with
  | [] => raise (ValueError "Unable to find Auto Scaling Group")
  | _ :: _ :: _ => raise (ValueError "More than one Auto Scaling Group was found")
  | [asg0] =>
      let desired_change := DesiredCapacity asg0 - desired_count in
      if desired_change <? 0 then
        raise (ValueError (fewer_than_message asg_name desired_count))
      else if desired_change =? 0 then
        exit
      else
        ret desired_change
  end.

(** Lines 41-58. *)
Definition get_instances_to_remove (cluster_name : string) (desired_change : Z)
  : M W (list string) :=
  container_instance_arns <-
    invoke (ListContainerInstances cluster_name)
           (list_container_instances aws cluster_name) ;;
  raw_instances <-
    invoke (DescribeContainerInstances cluster_name container_instance_arns)
           (describe_container_instances aws cluster_name container_instance_arns) ;;
  ret (select_instances raw_instances desired_change).

(** A call [name(n)] of a global name with one [int] argument.  None of
    the objects the module binds accepts such a call. *)
Definition call_global_int (name : string) (arg : Z) : M W unit :=
  match lookup_global name with
  | None => raise (NameError name)
  | Some _ => raise TypeError
  end.

(** Lines 71-89: the [while retries > 0: ... else: ...] loop, by recursion
    on [retries]; the [else] branch runs when the counter reaches zero. *)
Fixpoint drain_poll (cluster_name : string) (instances : list string)
                    (retries : nat) : M W unit :=
  match retries with
  | O => raise (RuntimeError (drain_timeout_message (Z.of_nat retries * 10)))
  | S retries' =>
      instance_descriptions <-
        invoke (DescribeContainerInstances cluster_name instances)
               (describe_container_instances aws cluster_name instances) ;;
      if forallb (fun instance => runningTasksCount instance =? 0)
                 instance_descriptions
      then ret tt
      else
        call_global_int "sleep" 10 ;;
        drain_poll cluster_name instances retries'
  end.

(** Lines 60-89. *)
Definition drain_instances (cluster_name : string) (instances : list string)
  : M W unit :=
  invoke (UpdateContainerInstancesState cluster_name instances "DRAINING")
         (update_container_instances_state aws cluster_name instances "DRAINING") ;;
  let retries := 30%nat in
  drain_poll cluster_name instances retries.

(** Lines 91-98. *)
Fixpoint terminate_instance (instances : list string) : M W unit :=
  match instances with
  | [] => ret tt
  | instance_id :: rest =>
      invoke (TerminateInstanceInAutoScalingGroup instance_id true)
             (terminate_instance_in_auto_scaling_group aws instance_id true) ;;
      terminate_instance rest
  end.

(** A call [name(l)] of a global name with one list argument.  Of the
    objects the module binds only [terminate_instance] accepts it. *)
Definition call_global_list (name : string) (arg : list string) : M W unit :=
  match lookup_global name with
  | None => raise (NameError name)
  | Some Def_terminate_instance => terminate_instance arg
  | Some _ => raise TypeError
  end.

(** Lines 16-19, the check after termination. *)
Definition verify (asg_name : string) (desired_count : Z) : M W unit :=
  change <- get_change asg_name desired_count ;;
  if negb (change =? 0) then raise (RuntimeError mismatch_message)
  else ret tt.

(** Lines 7-19. *)
Definition main (cluster_name asg_name : string) (desired_count : Z) : M W unit :=
  desired_change <- get_change asg_name desired_count ;;
  instances <- get_instances_to_remove cluster_name desired_change ;;
  drain_instances cluster_name instances ;;
  call_global_list "terminate_instances" instances ;;
  verify asg_name desired_count.

End Script.

(** A termination loop that carries on past a failed node sends a request
    for every node of its list, whatever the replies are. *)
Definition every_node_attempted {W} (aws : Service W)
                                (instances : list string) (w : W) : Prop :=
  forall instance_id,
    In instance_id instances ->
    In (terminate_request instance_id) (trace (terminate_instance aws instances w)).

(** The service answers the request [c], sent in the world [w], with the
    error [code]. *)
Definition failed_with {W} (aws : Service W) (c : call) (w : W) (code : string)
  : Prop :=
  match c with
  | DescribeAutoScalingGroups names =>
      fst (describe_auto_scaling_groups aws names w) = Failure code
  | ListContainerInstances cluster =>
      fst (list_container_instances aws cluster w) = Failure code
  | DescribeContainerInstances cluster ids =>
      fst (describe_container_instances aws cluster ids w) = Failure code
  | UpdateContainerInstancesState cluster ids s =>
      fst (update_container_instances_state aws cluster ids s w) = Failure code
  | TerminateInstanceInAutoScalingGroup id dec =>
      fst (terminate_instance_in_auto_scaling_group aws id dec w) = Failure code
  end.

(** The world the service leaves when it answers the request [c], sent in
    the world [w]. *)
Definition world_after {W} (aws : Service W) (c : call) (w : W) : W :=
  match c with
  | DescribeAutoScalingGroups names =>
      snd (describe_auto_scaling_groups aws names w)
  | ListContainerInstances cluster =>
      snd (list_container_instances aws cluster w)
  | DescribeContainerInstances cluster ids =>
      snd (describe_container_instances aws cluster ids w)
  | UpdateContainerInstancesState cluster ids s =>
      snd (update_container_instances_state aws cluster ids s w)
  | TerminateInstanceInAutoScalingGroup id dec =>
      snd (terminate_instance_in_auto_scaling_group aws id dec w)
  end.

(** The run of [main] from [w] gets as far as sending [request]: it has
    sent the requests [earlier], all answered without error, and the
    service is in the world [w0] when [request] goes out.  One case per
    request of [main], in the order of lines 22, 42, 46, 63 and 72. *)
Definition main_sends {W} (aws : Service W)
                      (cluster_name asg_name : string) (desired_count : Z) (w : W)
                      (earlier : list call) (request : call) (w0 : W) : Prop :=
  (earlier = [] /\
   request = DescribeAutoScalingGroups [asg_name] /\
   w0 = w)
  \/
  (exists change t1,
      get_change aws asg_name desired_count w = (Ok change, w0, t1) /\
      earlier = t1 /\
      request = ListContainerInstances cluster_name)
  \/
  (exists change w1 t1 arns,
      get_change aws asg_name desired_count w = (Ok change, w1, t1) /\
      list_container_instances aws cluster_name w1 = (Success arns, w0) /\
      earlier = t1 ++ [ListContainerInstances cluster_name] /\
      request = DescribeContainerInstances cluster_name arns)
  \/
  (exists change w1 t1 instances t2,
      get_change aws asg_name desired_count w = (Ok change, w1, t1) /\
      get_instances_to_remove aws cluster_name change w1 = (Ok instances, w0, t2) /\
      earlier = t1 ++ t2 /\
      request = UpdateContainerInstancesState cluster_name instances "DRAINING")
  \/
  (exists change w1 t1 instances w2 t2,
      get_change aws asg_name desired_count w = (Ok change, w1, t1) /\
      get_instances_to_remove aws cluster_name change w1 = (Ok instances, w2, t2) /\
      update_container_instances_state aws cluster_name instances "DRAINING" w2
        = (Success tt, w0) /\
      earlier = t1 ++ t2
                ++ [UpdateContainerInstancesState cluster_name instances "DRAINING"] /\
      request = DescribeContainerInstances cluster_name instances).


(** ** A small simulated fleet

    A concrete service to run the script against: groups and nodes are
    lists, reads do not change anything, a drain request marks the nodes,
    and a termination removes the node and lowers the desired capacity of
    every group, unless the instance is one the authority refuses. *)
Module Sim.

Record world := {
  groups : list AutoScalingGroup;
  nodes : list ContainerInstance;
  refused : list string
}.

Definition mem (x : string) (l : list string) : bool :=
  existsb (String.eqb x) l.

Definition selected (ids : list string) (n : ContainerInstance) : bool :=
  mem (containerInstanceArn n) ids || mem (ec2InstanceId n) ids.

Definition set_status (s : string) (n : ContainerInstance) : ContainerInstance :=
  {| containerInstanceArn := containerInstanceArn n;
     ec2InstanceId := ec2InstanceId n;
     registeredAt := registeredAt n;
     runningTasksCount := runningTasksCount n;
     status := s |}.

Definition lower (dec : bool) (g : AutoScalingGroup) : AutoScalingGroup :=
  {| AutoScalingGroupName := AutoScalingGroupName g;
     DesiredCapacity := if dec then DesiredCapacity g - 1 else DesiredCapacity g |}.

Definition aws : Service world := {|
  describe_auto_scaling_groups names w :=
    (Success (filter (fun g => mem (AutoScalingGroupName g) names) (groups w)), w);
  list_container_instances cluster w :=
    (Success (map containerInstanceArn (nodes w)), w);
  describe_container_instances cluster ids w :=
    (Success (filter (selected ids) (nodes w)), w);
  update_container_instances_state cluster ids s w :=
    (Success tt,
     {| groups := groups w;
        nodes := map (fun n => if selected ids n then set_status s n else n) (nodes w);
        refused := refused w |});
  terminate_instance_in_auto_scaling_group id dec w :=
    if mem id (refused w) then (Failure "ValidationError", w)
    else
      (Success tt,
       {| groups := map (lower dec) (groups w);
          nodes := filter (fun n => negb (String.eqb (ec2InstanceId n) id)) (nodes w);
          refused := refused w |})
|}.

Definition node (id : string) (registered running : Z) : ContainerInstance :=
  {| containerInstanceArn := ("arn:" ++ id)%string;
     ec2InstanceId := id;
     registeredAt := registered;
     runningTasksCount := running;
     status := "ACTIVE" |}.

Definition group (name : string) (capacity : Z) : AutoScalingGroup :=
  {| AutoScalingGroupName := name; DesiredCapacity := capacity |}.

(** Three idle nodes, registered out of order. *)
Definition idle_fleet : world :=
  {| groups := [group "web" 3];
     nodes := [node "i-c" 30 0; node "i-a" 10 0; node "i-b" 20 0];
     refused := [] |}.

(** The same fleet with work still running on the oldest node. *)
Definition busy_fleet : world :=
  {| groups := [group "web" 3];
     nodes := [node "i-c" 30 0; node "i-a" 10 2; node "i-b" 20 0];
     refused := [] |}.

(** Two groups answer to the same name. *)
Definition twin_fleet : world :=
  {| groups := [group "web" 3; group "web" 5];
     nodes := [node "i-a" 10 0];
     refused := [] |}.

(** The authority refuses to terminate [i-a]. *)
Definition refusing_fleet : world :=
  {| groups := [group "web" 3];
     nodes := [node "i-c" 30 0; node "i-a" 10 0; node "i-b" 20 0];
     refused := ["i-a"] |}.

End Sim.

(** ** A capacity ledger

    A second concrete service, whose world is only the desired capacity of
    one group.  Its cluster [default] has no container instances, and like
    the real service it rejects a describe request that names none. *)
Module Ledger.

Definition aws : Service Z := {|
  describe_auto_scaling_groups names w :=
    (Success [{| AutoScalingGroupName := hd "" names; DesiredCapacity := w |}], w);
  list_container_instances cluster w :=
    if String.eqb cluster "default" then (Success [], w)
    else (Failure "ClusterNotFoundException", w);
  describe_container_instances cluster ids w :=
    match ids with
    | [] => (Failure "InvalidParameterException", w)
    | _ :: _ => (Success [], w)
    end;
  update_container_instances_state cluster ids s w := (Success tt, w);
  terminate_instance_in_auto_scaling_group id dec w :=
    (Success tt, if dec then w - 1 else w)
|}.

End Ledger.

(** * Properties *)

(** ** Sorting and slicing *)

Section Sorting.
Context {A : Type} (key : A -> Z).

Lemma insert_by_perm (x : A) (l : list A) :
  Permutation (insert_by key x l) (x :: l).
Proof.
  induction l as [|y l IH]; simpl.
  - apply Permutation_refl.
  - destruct (key x <=? key y).
    + apply Permutation_refl.
    + apply perm_trans with (y :: x :: l).
      * apply perm_skip, IH.
      * apply perm_swap.
Qed.

Lemma sorted_perm (l : list A) : Permutation (sorted l key) l.
Proof.
  induction l as [|x l IH]; simpl.
  - apply perm_nil.
  - apply perm_trans with (x :: sorted l key).
    + apply insert_by_perm.
    + apply perm_skip, IH.
Qed.

Lemma insert_by_sorted (x : A) (l : list A) :
  StronglySorted (key_le key) l -> StronglySorted (key_le key) (insert_by key x l).
Proof.
  induction 1 as [|y l Hl IH Hy]; simpl.
  - repeat constructor.
  - destruct (Z.leb_spec (key x) (key y)) as [Hxy|Hxy].
    + constructor.
      * constructor; assumption.
      * constructor; [exact Hxy|].
        rewrite Forall_forall in *. intros z Hz.
        unfold key_le in *. specialize (Hy z Hz). lia.
    + constructor; [exact IH|].
      rewrite Forall_forall in *. intros z Hz.
      apply (Permutation_in _ (insert_by_perm x l)) in Hz.
      destruct Hz as [<-|Hz].
      * unfold key_le. lia.
      * apply Hy, Hz.
Qed.

Lemma sorted_sorted (l : list A) : StronglySorted (key_le key) (sorted l key).
Proof.
  induction l as [|x l IH]; simpl.
  - constructor.
  - apply insert_by_sorted, IH.
Qed.

(** Entries with equal keys keep the order they came in. *)
Lemma insert_by_stable (t : Z) (x : A) (l : list A) :
  filter (fun y => key y =? t) (insert_by key x l)
  = filter (fun y => key y =? t) (x :: l).
Proof.
  induction l as [|y l IH]; [reflexivity|].
  cbn [insert_by].
  destruct (Z.leb_spec (key x) (key y)) as [Hxy|Hxy]; [reflexivity|].
  cbn [filter] in *. rewrite IH.
  destruct (Z.eqb_spec (key x) t), (Z.eqb_spec (key y) t);
    try reflexivity; lia.
Qed.

Lemma sorted_stable (t : Z) (l : list A) :
  filter (fun y => key y =? t) (sorted l key) = filter (fun y => key y =? t) l.
Proof.
  induction l as [|x l IH]; [reflexivity|].
  cbn [sorted]. rewrite insert_by_stable. cbn [filter]. now rewrite IH.
Qed.

Lemma slice_to_count (l : list A) (k : nat) :
  slice_to l (Z.of_nat k) = firstn k l.
Proof.
  unfold slice_to.
  destruct (Z.leb_spec 0 (Z.of_nat k)); [|lia].
  now rewrite Nat2Z.id.
Qed.


End Sorting.

(** C5: for every list of nodes and every count [k], the selection returns
    the instance ids of exactly [min k (length nodes)] nodes; these are the
    first entries of the node list rearranged in ascending order of
    [registeredAt] (oldest first, nodes registered at the same time in the
    order they were listed); the result is a function of the two inputs
    alone; and when [k] is at least the number of nodes, every node is
    returned. *)
Theorem select_instances_oldest_first
    (raw_instances : list ContainerInstance) (k : nat) :
  List.length (select_instances raw_instances (Z.of_nat k))
    = Nat.min k (List.length raw_instances) /\
  (exists chosen rest,
      select_instances raw_instances (Z.of_nat k) = map ec2InstanceId chosen /\
      List.length chosen = Nat.min k (List.length raw_instances) /\
      Permutation (chosen ++ rest) raw_instances /\
      StronglySorted (fun a b => registeredAt a <= registeredAt b) (chosen ++ rest) /\
      (forall t, filter (fun i => registeredAt i =? t) (chosen ++ rest)
                 = filter (fun i => registeredAt i =? t) raw_instances) /\
      ((List.length raw_instances <= k)%nat -> rest = [])) /\
  (forall raw_instances' k',
      raw_instances' = raw_instances -> k' = k ->
      select_instances raw_instances' (Z.of_nat k')
      = select_instances raw_instances (Z.of_nat k)).
Proof.
  assert (Hsel : select_instances raw_instances (Z.of_nat k)
                 = map ec2InstanceId (firstn k (sorted raw_instances registeredAt))).
  { unfold select_instances. now rewrite slice_to_count. }
  assert (Hlen : List.length (sorted raw_instances registeredAt)
                 = List.length raw_instances)
    by apply Permutation_length, sorted_perm.
  split; [|split].
  - rewrite Hsel, length_map, length_firstn, Hlen. reflexivity.
  - exists (firstn k (sorted raw_instances registeredAt)),
           (skipn k (sorted raw_instances registeredAt)).
    rewrite firstn_skipn.
    split; [exact Hsel|].
    split; [now rewrite length_firstn, Hlen|].
    split; [apply sorted_perm|].
    split; [apply (sorted_sorted registeredAt)|].
    split; [intro t; apply sorted_stable|].
    intro Hk. apply skipn_all2. lia.
  - intros ? ? -> ->. reflexivity.
Qed.

(** The three-node fleet and a count of two: the two oldest, oldest first. *)
Lemma select_instances_oldest_first_witness :
  select_instances (Sim.nodes Sim.idle_fleet) (Z.of_nat 2) = ["i-a"; "i-b"] /\
  List.length (select_instances (Sim.nodes Sim.idle_fleet) (Z.of_nat 2)) = 2%nat.
Proof.
  split.
  - reflexivity.
  - exact (proj1 (select_instances_oldest_first (Sim.nodes Sim.idle_fleet) 2)).
Defined.

(** ** How each function runs *)

Ltac break_match :=
  match goal with
  | |- context [match ?x with _ => _ end] => destruct x eqn:?
  | H : context [match ?x with _ => _ end] |- _ => destruct x eqn:?
  end.

Section Run.
Context {W : Type} (aws : Service W).

Lemma get_change_run (asg_name : string) (desired_count : Z) (w : W) :
  get_change aws asg_name desired_count w =
  let t := [DescribeAutoScalingGroups [asg_name]] in
  match describe_auto_scaling_groups aws [asg_name] w with
  | (Failure code, w1) => (Raise (ClientError code), w1, t)
  | (Success [], w1) =>
      (Raise (ValueError "Unable to find Auto Scaling Group"), w1, t)
  | (Success [asg0], w1) =>
      if DesiredCapacity asg0 - desired_count <? 0 then
        (Raise (ValueError (fewer_than_message asg_name desired_count)), w1, t)
      else if DesiredCapacity asg0 - desired_count =? 0 then
        (Raise (SystemExit None), w1, t)
      else (Ok (DesiredCapacity asg0 - desired_count), w1, t)
  | (Success (_ :: _ :: _), w1) =>
      (Raise (ValueError "More than one Auto Scaling Group was found"), w1, t)
  end.
Proof.
  unfold get_change, bind, invoke.
  destruct (describe_auto_scaling_groups aws [asg_name] w) as [[asgs|code] w1];
    [|reflexivity].
  destruct asgs as [|asg0 [|asg1 asgs]]; try reflexivity.
  cbv zeta.
  destruct (DesiredCapacity asg0 - desired_count <? 0); [reflexivity|].
  destruct (DesiredCapacity asg0 - desired_count =? 0); reflexivity.
Qed.

(** What [get_change] hands back is strictly positive. *)
Lemma get_change_positive asg_name desired_count w change w1 t :
  get_change aws asg_name desired_count w = (Ok change, w1, t) -> 0 < change.
Proof.
  rewrite get_change_run. cbv zeta. intro H.
  repeat break_match; try discriminate.
  injection H as <- _ _. lia.
Qed.

Lemma get_instances_to_remove_run (cluster_name : string) (desired_change : Z) (w : W) :
  get_instances_to_remove aws cluster_name desired_change w =
  match list_container_instances aws cluster_name w with
  | (Failure code, w1) =>
      (Raise (ClientError code), w1, [ListContainerInstances cluster_name])
  | (Success arns, w1) =>
      let t := [ListContainerInstances cluster_name;
                DescribeContainerInstances cluster_name arns] in
      match describe_container_instances aws cluster_name arns w1 with
      | (Failure code, w2) => (Raise (ClientError code), w2, t)
      | (Success raw_instances, w2) =>
          (Ok (select_instances raw_instances desired_change), w2, t)
      end
  end.
Proof.
  unfold get_instances_to_remove, bind, invoke.
  destruct (list_container_instances aws cluster_name w) as [[arns|code] w1];
    [|reflexivity].
  destruct (describe_container_instances aws cluster_name arns w1)
    as [[raw|code] w2]; reflexivity.
Qed.

Lemma sleep_unbound (n : Z) (w : W) :
  call_global_int "sleep" n w = (Raise (NameError "sleep"), w, []).
Proof. reflexivity. Qed.

Lemma terminate_instances_unbound (instances : list string) (w : W) :
  call_global_list aws "terminate_instances" instances w
  = (Raise (NameError "terminate_instances"), w, []).
Proof. reflexivity. Qed.

(** One round of the polling loop with budget left. *)
Lemma drain_poll_run (cluster_name : string) (instances : list string)
                     (retries : nat) (w : W) :
  drain_poll aws cluster_name instances (S retries) w =
  let t := [DescribeContainerInstances cluster_name instances] in
  match describe_container_instances aws cluster_name instances w with
  | (Failure code, w1) => (Raise (ClientError code), w1, t)
  | (Success instance_descriptions, w1) =>
      if forallb (fun instance => runningTasksCount instance =? 0)
                 instance_descriptions
      then (Ok tt, w1, t)
      else (Raise (NameError "sleep"), w1, t)
  end.
Proof.
  cbn [drain_poll]. unfold bind at 1. unfold invoke.
  destruct (describe_container_instances aws cluster_name instances w)
    as [[descs|code] w1]; [|reflexivity].
  destruct (forallb _ descs); [reflexivity|].
  unfold bind. rewrite sleep_unbound. reflexivity.
Qed.

Lemma drain_instances_run (cluster_name : string) (instances : list string) (w : W) :
  drain_instances aws cluster_name instances w =
  let u := UpdateContainerInstancesState cluster_name instances "DRAINING" in
  let d := DescribeContainerInstances cluster_name instances in
  match update_container_instances_state aws cluster_name instances "DRAINING" w with
  | (Failure code, w1) => (Raise (ClientError code), w1, [u])
  | (Success _, w1) =>
      match describe_container_instances aws cluster_name instances w1 with
      | (Failure code, w2) => (Raise (ClientError code), w2, [u; d])
      | (Success instance_descriptions, w2) =>
          if forallb (fun instance => runningTasksCount instance =? 0)
                     instance_descriptions
          then (Ok tt, w2, [u; d])
          else (Raise (NameError "sleep"), w2, [u; d])
      end
  end.
Proof.
  unfold drain_instances, bind at 1. unfold invoke. cbv zeta.
  destruct (update_container_instances_state aws cluster_name instances "DRAINING" w)
    as [[[]|code] w1]; [|reflexivity].
  rewrite drain_poll_run. cbv zeta.
  destruct (describe_container_instances aws cluster_name instances w1)
    as [[descs|code] w2]; [|reflexivity].
  destruct (forallb _ descs); reflexivity.
Qed.

Lemma main_run (cluster_name asg_name : string) (desired_count : Z) (w : W) :
  main aws cluster_name asg_name desired_count w =
  match get_change aws asg_name desired_count w with
  | (Raise e, w1, t1) => (Raise e, w1, t1)
  | (Ok desired_change, w1, t1) =>
      match get_instances_to_remove aws cluster_name desired_change w1 with
      | (Raise e, w2, t2) => (Raise e, w2, t1 ++ t2)
      | (Ok instances, w2, t2) =>
          match drain_instances aws cluster_name instances w2 with
          | (Raise e, w3, t3) => (Raise e, w3, t1 ++ t2 ++ t3)
          | (Ok _, w3, t3) =>
              (Raise (NameError "terminate_instances"), w3, t1 ++ t2 ++ t3 ++ [])
          end
      end
  end.
Proof.
  unfold main, bind at 1.
  destruct (get_change aws asg_name desired_count w) as [[[dc|e] w1] t1];
    [|reflexivity].
  unfold bind at 1.
  destruct (get_instances_to_remove aws cluster_name dc w1) as [[[ids|e] w2] t2];
    [|reflexivity].
  unfold bind at 1.
  destruct (drain_instances aws cluster_name ids w2) as [[[[]|e] w3] t3];
    [|reflexivity].
  unfold bind at 1. rewrite terminate_instances_unbound. reflexivity.
Qed.

(** No run of [main] sends a termination request. *)
Lemma main_sends_no_termination cluster_name asg_name desired_count w :
  existsb is_terminate (trace (main aws cluster_name asg_name desired_count w))
  = false.
Proof.
  rewrite main_run.
  destruct (get_change aws asg_name desired_count w) as [[r1 w1] t1] eqn:H1.
  assert (Ht1 : t1 = [DescribeAutoScalingGroups [asg_name]]).
  { rewrite get_change_run in H1. cbv zeta in H1.
    repeat break_match; congruence. }
  destruct r1 as [dc|e]; [|subst; reflexivity].
  destruct (get_instances_to_remove aws cluster_name dc w1) as [[r2 w2] t2] eqn:H2.
  assert (Ht2 : existsb is_terminate t2 = false).
  { rewrite get_instances_to_remove_run in H2. cbv zeta in H2.
    repeat break_match; injection H2 as <- <- <-; reflexivity. }
  destruct r2 as [ids|e]; [|subst; unfold trace; simpl; exact Ht2].
  destruct (drain_instances aws cluster_name ids w2) as [[r3 w3] t3] eqn:H3.
  assert (Ht3 : existsb is_terminate t3 = false).
  { rewrite drain_instances_run in H3. cbv zeta in H3.
    repeat break_match; injection H3 as <- <- <-; reflexivity. }
  destruct r3 as [[]|e]; subst; unfold trace; simpl;
    rewrite ?existsb_app, Ht2, Ht3; reflexivity.
Qed.

End Run.

Section Orchestrator.
Context {W : Type} (aws : Service W).

Lemma verify_run (asg_name : string) (desired_count : Z) (w : W) :
  verify aws asg_name desired_count w =
  match get_change aws asg_name desired_count w with
  | (Raise e, w1, t) => (Raise e, w1, t)
  | (Ok change, w1, t) =>
      if negb (change =? 0) then (Raise (RuntimeError mismatch_message), w1, t ++ [])
      else (Ok tt, w1, t ++ [])
  end.
Proof.
  unfold verify, bind.
  destruct (get_change aws asg_name desired_count w) as [[[change|e] w1] t];
    [|reflexivity].
  destruct (negb (change =? 0)); reflexivity.
Qed.

(** Once [get_change] has returned, [main] can only end in an uncaught
    exception other than [SystemExit]. *)
Lemma main_fails_past_get_change cluster_name asg_name desired_count w change w1 t1 :
  get_change aws asg_name desired_count w = (Ok change, w1, t1) ->
  exit_status (outcome (main aws cluster_name asg_name desired_count w)) = 1.
Proof.
  intro H1. rewrite main_run, H1.
  destruct (get_instances_to_remove aws cluster_name change w1)
    as [[r2 w2] t2] eqn:H2.
  rewrite get_instances_to_remove_run in H2. cbv zeta in H2.
  destruct r2 as [ids|e].
  - destruct (drain_instances aws cluster_name ids w2) as [[r3 w3] t3] eqn:H3.
    rewrite drain_instances_run in H3. cbv zeta in H3.
    destruct r3 as [[]|e]; [reflexivity|].
    repeat break_match; try discriminate; injection H3 as <- _ _; reflexivity.
  - repeat break_match; try discriminate; injection H2 as <- _ _; reflexivity.
Qed.

(** A single read that ends in exit status zero found the requested
    capacity. *)
Lemma get_change_exit_zero asg_name desired_count w e w1 t :
  get_change aws asg_name desired_count w = (Raise e, w1, t) ->
  exit_status (@Raise unit e) = 0 ->
  exists asg,
    describe_auto_scaling_groups aws [asg_name] w = (Success [asg], w1) /\
    DesiredCapacity asg = desired_count /\
    t = [DescribeAutoScalingGroups [asg_name]].
Proof.
  rewrite get_change_run. cbv zeta. intros H1 Hexit.
  destruct (describe_auto_scaling_groups aws [asg_name] w) as [[asgs|code] w'].
  2: { injection H1 as <- _ _. discriminate. }
  destruct asgs as [|asg0 [|asg1 asgs]];
    try (injection H1 as <- _ _; discriminate).
  destruct (DesiredCapacity asg0 - desired_count <? 0);
    [injection H1 as <- _ _; discriminate|].
  destruct (Z.eqb_spec (DesiredCapacity asg0 - desired_count) 0) as [Hz|Hz];
    [|discriminate].
  injection H1 as _ <- <-.
  exists asg0. repeat split. lia.
Qed.

(** C2: when [get_change] returns a reduction (which is then positive),
    the selection succeeds and the drain phase completes, [main] raises
    [NameError] for [terminate_instances] right after the drain phase,
    and its trace holds no termination request. *)
Theorem main_name_error_before_termination
    (cluster_name asg_name : string) (desired_count : Z) (w : W)
    (desired_change : Z) (instances : list string)
    (w1 w2 w3 : W) (t1 t2 t3 : list call) :
  get_change aws asg_name desired_count w = (Ok desired_change, w1, t1) ->
  get_instances_to_remove aws cluster_name desired_change w1 = (Ok instances, w2, t2) ->
  drain_instances aws cluster_name instances w2 = (Ok tt, w3, t3) ->
  0 < desired_change /\
  main aws cluster_name asg_name desired_count w
    = (Raise (NameError "terminate_instances"), w3, t1 ++ t2 ++ t3) /\
  existsb is_terminate (trace (main aws cluster_name asg_name desired_count w))
    = false.
Proof.
  intros H1 H2 H3. split; [|split].
  - eapply get_change_positive, H1.
  - rewrite main_run, H1, H2, H3, app_nil_r. reflexivity.
  - apply main_sends_no_termination.
Qed.

(** C3: when the drain request succeeds and the first poll reports a node
    with running tasks, [drain_instances] raises [NameError] for [sleep]
    after that one poll.  So the drain phase returns only if the first
    poll shows every node idle, it never raises the timeout error, and it
    never polls a second time. *)
Theorem drain_instances_sleep_name_error
    (cluster_name : string) (instances : list string) (w : W) :
  (forall w1 descriptions w2,
      update_container_instances_state aws cluster_name instances "DRAINING" w
        = (Success tt, w1) ->
      describe_container_instances aws cluster_name instances w1
        = (Success descriptions, w2) ->
      existsb (fun instance => negb (runningTasksCount instance =? 0)) descriptions
        = true ->
      drain_instances aws cluster_name instances w
      = (Raise (NameError "sleep"), w2,
         [UpdateContainerInstancesState cluster_name instances "DRAINING";
          DescribeContainerInstances cluster_name instances])) /\
  (outcome (drain_instances aws cluster_name instances w) = Ok tt ->
   exists w1 descriptions w2,
     update_container_instances_state aws cluster_name instances "DRAINING" w
       = (Success tt, w1) /\
     describe_container_instances aws cluster_name instances w1
       = (Success descriptions, w2) /\
     Forall (fun instance => runningTasksCount instance = 0) descriptions /\
     final (drain_instances aws cluster_name instances w) = w2) /\
  (forall msg,
      outcome (drain_instances aws cluster_name instances w)
      <> Raise (RuntimeError msg)) /\
  (List.length (filter is_describe_container_instances
                  (trace (drain_instances aws cluster_name instances w)))
   <= 1)%nat.
Proof.
  rewrite drain_instances_run. cbv zeta.
  split; [|split; [|split]].
  - intros w1 descs w2 Hu Hd Hbusy. rewrite Hu, Hd.
    assert (Hall : forallb (fun instance => runningTasksCount instance =? 0) descs
                   = false).
    { apply existsb_exists in Hbusy. destruct Hbusy as [i [Hin Hi]].
      destruct (forallb _ descs) eqn:Hf; [|reflexivity].
      rewrite forallb_forall in Hf. rewrite (Hf i Hin) in Hi. discriminate. }
    rewrite Hall. reflexivity.
  - destruct (update_container_instances_state aws cluster_name instances "DRAINING" w)
      as [[[]|code] w1] eqn:Hu; [|discriminate].
    destruct (describe_container_instances aws cluster_name instances w1)
      as [[descs|code] w2] eqn:Hd; [|discriminate].
    destruct (forallb _ descs) eqn:Hf; [|discriminate].
    intros _. exists w1, descs, w2.
    split; [reflexivity|]. split; [exact Hd|]. split; [|reflexivity].
    apply Forall_forall. intros i Hin.
    rewrite forallb_forall in Hf. apply Z.eqb_eq, Hf, Hin.
  - intro msg. repeat break_match; discriminate.
  - repeat break_match; simpl; lia.
Qed.

(** C6: when the group is found and its desired capacity is below the
    requested count, [get_change] raises the fewer-than [ValueError];
    [main] ends with it, with a nonzero exit status, after a single read
    and without any mutating request. *)
Theorem main_under_capacity (cluster_name asg_name : string) (desired_count : Z)
                            (w : W) (asg : AutoScalingGroup) (w1 : W) :
  describe_auto_scaling_groups aws [asg_name] w = (Success [asg], w1) ->
  DesiredCapacity asg - desired_count < 0 ->
  get_change aws asg_name desired_count w
    = (Raise (ValueError (fewer_than_message asg_name desired_count)), w1,
       [DescribeAutoScalingGroups [asg_name]]) /\
  main aws cluster_name asg_name desired_count w
    = (Raise (ValueError (fewer_than_message asg_name desired_count)), w1,
       [DescribeAutoScalingGroups [asg_name]]) /\
  exit_status (outcome (main aws cluster_name asg_name desired_count w)) = 1 /\
  existsb mutating (trace (main aws cluster_name asg_name desired_count w)) = false.
Proof.
  intros Hd Hlt.
  assert (Hg : get_change aws asg_name desired_count w
               = (Raise (ValueError (fewer_than_message asg_name desired_count)), w1,
                  [DescribeAutoScalingGroups [asg_name]])).
  { rewrite get_change_run, Hd. cbv zeta.
    destruct (Z.ltb_spec (DesiredCapacity asg - desired_count) 0); [reflexivity|lia]. }
  rewrite main_run, Hg. repeat split.
Qed.

(** C7: when the group is found and its desired capacity equals the
    requested count, [main] leaves through [exit()] with status zero after
    the single read: nothing is listed, drained or terminated. *)
Theorem main_nothing_to_do (cluster_name asg_name : string) (desired_count : Z)
                           (w : W) (asg : AutoScalingGroup) (w1 : W) :
  describe_auto_scaling_groups aws [asg_name] w = (Success [asg], w1) ->
  DesiredCapacity asg - desired_count = 0 ->
  main aws cluster_name asg_name desired_count w
    = (Raise (SystemExit None), w1, [DescribeAutoScalingGroups [asg_name]]) /\
  exit_status (outcome (main aws cluster_name asg_name desired_count w)) = 0 /\
  existsb mutating (trace (main aws cluster_name asg_name desired_count w)) = false.
Proof.
  intros Hd Hz.
  assert (Hg : get_change aws asg_name desired_count w
               = (Raise (SystemExit None), w1,
                  [DescribeAutoScalingGroups [asg_name]])).
  { rewrite get_change_run, Hd. cbv zeta. rewrite Hz. reflexivity. }
  rewrite main_run, Hg. repeat split.
Qed.

End Orchestrator.

Section Errors.
Context {W : Type} (aws : Service W).

(** C8, amended: [terminate_instance] sends one termination request per
    node, in list order, each asking for the capacity decrement.  When the
    requests for the nodes [before] have succeeded and the service refuses
    the request for the next node, the loop ends there: the refusal's
    [ClientError] leaves the function, the trace ends with the refused
    request and the nodes [after] get none.  Every run is of one of two
    kinds: all requests succeeded and the function returns, or it stopped
    in this way at the first refusal. *)
Theorem terminate_instance_stops_at_first_failure
    (instances : list string) (w : W) :
  (forall before instance_id after w1 t code w2,
      instances = before ++ instance_id :: after ->
      terminate_instance aws before w = (Ok tt, w1, t) ->
      terminate_instance_in_auto_scaling_group aws instance_id true w1
        = (Failure code, w2) ->
      t = map terminate_request before /\
      terminate_instance aws instances w
      = (Raise (ClientError code), w2,
         map terminate_request (before ++ [instance_id]))) /\
  ((outcome (terminate_instance aws instances w) = Ok tt /\
    trace (terminate_instance aws instances w) = map terminate_request instances)
   \/
   (exists before instance_id after w1 code,
       instances = before ++ instance_id :: after /\
       terminate_instance aws before w
         = (Ok tt, w1, map terminate_request before) /\
       terminate_instance_in_auto_scaling_group aws instance_id true w1
         = (Failure code, final (terminate_instance aws instances w)) /\
       outcome (terminate_instance aws instances w) = Raise (ClientError code) /\
       trace (terminate_instance aws instances w)
         = map terminate_request (before ++ [instance_id]))).
Proof.
  split.
  - intros before instance_id after w1 t code w2 -> Hbefore Hfail.
    revert w t Hbefore.
    induction before as [|b before IH]; intros w t Hbefore.
    + injection Hbefore as <- <-.
      split; [reflexivity|].
      cbn [app terminate_instance map]. unfold bind, invoke.
      rewrite Hfail. reflexivity.
    + cbn [app terminate_instance map] in *. unfold bind, invoke in *.
      destruct (terminate_instance_in_auto_scaling_group aws b true w)
        as [[[]|code'] w'] eqn:Hcall; [|discriminate].
      destruct (terminate_instance aws before w') as [[r u] t'] eqn:Hrest.
      injection Hbefore as -> -> <-.
      destruct (IH w' t' Hrest) as [-> Hrun].
      rewrite Hrun. split; reflexivity.
  - revert w. induction instances as [|instance_id rest IH]; intro w.
    + left. split; reflexivity.
    + cbn [terminate_instance]. unfold bind, invoke.
      destruct (terminate_instance_in_auto_scaling_group aws instance_id true w)
        as [[[]|code] w1] eqn:Hcall.
      * destruct (IH w1)
          as [[Hok Htr]|(before & id & after & w2 & code & Hl & Hb & Hf & Ho & Htr)].
        -- left.
           destruct (terminate_instance aws rest w1) as [[r u] t].
           unfold outcome, trace in *. simpl in *. subst. split; reflexivity.
        -- right. exists (instance_id :: before), id, after, w2, code.
           cbn [terminate_instance app map]. unfold bind, invoke.
           rewrite Hcall, Hb.
           destruct (terminate_instance aws rest w1) as [[r u] t].
           unfold outcome, trace, final in *. simpl in *. subst.
           repeat split; assumption.
      * right. exists [], instance_id, rest, w, code.
        unfold outcome, trace, final. simpl. repeat split. exact Hcall.
Qed.

(** C9: when no group answers to the name, [get_change] raises the
    unable-to-find [ValueError], and when more than one does it raises the
    more-than-one [ValueError]; either way [main] ends with that error and
    a nonzero exit status after the single read, with no mutating
    request. *)
Theorem get_change_group_lookup_errors
    (cluster_name asg_name : string) (desired_count : Z) (w : W) :
  (forall w1,
      describe_auto_scaling_groups aws [asg_name] w = (Success [], w1) ->
      get_change aws asg_name desired_count w
        = (Raise (ValueError "Unable to find Auto Scaling Group"), w1,
           [DescribeAutoScalingGroups [asg_name]]) /\
      main aws cluster_name asg_name desired_count w
        = (Raise (ValueError "Unable to find Auto Scaling Group"), w1,
           [DescribeAutoScalingGroups [asg_name]])) /\
  (forall asg0 asg1 more w1,
      describe_auto_scaling_groups aws [asg_name] w
        = (Success (asg0 :: asg1 :: more), w1) ->
      get_change aws asg_name desired_count w
        = (Raise (ValueError "More than one Auto Scaling Group was found"), w1,
           [DescribeAutoScalingGroups [asg_name]]) /\
      main aws cluster_name asg_name desired_count w
        = (Raise (ValueError "More than one Auto Scaling Group was found"), w1,
           [DescribeAutoScalingGroups [asg_name]])) /\
  (forall asgs w1,
      describe_auto_scaling_groups aws [asg_name] w = (Success asgs, w1) ->
      List.length asgs <> 1%nat ->
      exit_status (outcome (main aws cluster_name asg_name desired_count w)) = 1 /\
      existsb mutating (trace (main aws cluster_name asg_name desired_count w))
        = false).
Proof.
  split; [|split].
  - intros w1 Hd. rewrite main_run, get_change_run, Hd. split; reflexivity.
  - intros asg0 asg1 more w1 Hd. rewrite main_run, get_change_run, Hd.
    split; reflexivity.
  - intros asgs w1 Hd Hlen. rewrite main_run, get_change_run, Hd.
    destruct asgs as [|asg0 [|asg1 more]]; simpl in Hlen;
      try congruence; split; reflexivity.
Qed.

(** C10: the check after termination raises the mismatch [RuntimeError]
    exactly when the read finds one group whose desired capacity is
    strictly above the requested count.  With the capacity equal to the
    request, [get_change] leaves through [exit()] with status zero; with
    the capacity below it, [get_change] raises the fewer-than
    [ValueError]. *)
Theorem verify_raises_mismatch_iff_positive
    (asg_name : string) (desired_count : Z) (w : W) :
  (outcome (verify aws asg_name desired_count w) = Raise (RuntimeError mismatch_message)
   <-> exists asg w1,
         describe_auto_scaling_groups aws [asg_name] w = (Success [asg], w1) /\
         0 < DesiredCapacity asg - desired_count) /\
  (forall asg w1,
      describe_auto_scaling_groups aws [asg_name] w = (Success [asg], w1) ->
      DesiredCapacity asg - desired_count = 0 ->
      verify aws asg_name desired_count w
        = (Raise (SystemExit None), w1, [DescribeAutoScalingGroups [asg_name]]) /\
      exit_status (outcome (verify aws asg_name desired_count w)) = 0) /\
  (forall asg w1,
      describe_auto_scaling_groups aws [asg_name] w = (Success [asg], w1) ->
      DesiredCapacity asg - desired_count < 0 ->
      verify aws asg_name desired_count w
        = (Raise (ValueError (fewer_than_message asg_name desired_count)), w1,
           [DescribeAutoScalingGroups [asg_name]])).
Proof.
  rewrite verify_run, get_change_run. cbv zeta.
  split; [split|split].
  - destruct (describe_auto_scaling_groups aws [asg_name] w) as [[asgs|code] w1];
      [|discriminate].
    destruct asgs as [|asg0 [|asg1 more]]; try discriminate.
    destruct (Z.ltb_spec (DesiredCapacity asg0 - desired_count) 0);
      [discriminate|].
    destruct (Z.eqb_spec (DesiredCapacity asg0 - desired_count) 0);
      [discriminate|].
    intros _. exists asg0, w1. split; [reflexivity|lia].
  - intros (asg & w1 & Hd & Hpos). rewrite Hd.
    destruct (Z.ltb_spec (DesiredCapacity asg - desired_count) 0); [lia|].
    destruct (Z.eqb_spec (DesiredCapacity asg - desired_count) 0) as [|Hne];
      [lia|].
    apply Z.eqb_neq in Hne. rewrite Hne. reflexivity.
  - intros asg w1 Hd Hz. rewrite Hd, Hz. split; reflexivity.
  - intros asg w1 Hd Hlt. rewrite Hd.
    destruct (Z.ltb_spec (DesiredCapacity asg - desired_count) 0); [reflexivity|lia].
Qed.

End Errors.

(** ** The script on the simulated fleet *)

(** Capacity three, one requested, all nodes idle: the two oldest nodes are
    drained and then the run stops at the unbound name. *)
Lemma main_name_error_before_termination_witness :
  outcome (main Sim.aws "ecs" "web" 1 Sim.idle_fleet)
    = Raise (NameError "terminate_instances") /\
  trace (main Sim.aws "ecs" "web" 1 Sim.idle_fleet)
    = [DescribeAutoScalingGroups ["web"];
       ListContainerInstances "ecs";
       DescribeContainerInstances "ecs" ["arn:i-c"; "arn:i-a"; "arn:i-b"];
       UpdateContainerInstancesState "ecs" ["i-a"; "i-b"] "DRAINING";
       DescribeContainerInstances "ecs" ["i-a"; "i-b"]].
Proof.
  destruct (main_name_error_before_termination
              Sim.aws "ecs" "web" 1 Sim.idle_fleet 2 ["i-a"; "i-b"]
              _ _ _ _ _ _ eq_refl eq_refl eq_refl) as (_ & Hmain & _).
  rewrite Hmain. split; reflexivity.
Defined.

(** The oldest node still runs two tasks at the first poll. *)
Lemma drain_instances_sleep_name_error_witness :
  outcome (drain_instances Sim.aws "ecs" ["i-a"; "i-b"] Sim.busy_fleet)
    = Raise (NameError "sleep").
Proof.
  destruct (drain_instances_sleep_name_error
              Sim.aws "ecs" ["i-a"; "i-b"] Sim.busy_fleet) as (Hbusy & _).
  erewrite Hbusy; reflexivity.
Defined.

(** Capacity three, four requested. *)
Lemma main_under_capacity_witness :
  main Sim.aws "ecs" "web" 4 Sim.idle_fleet
    = (Raise (ValueError "ASG web has fewer than 4 instances"), Sim.idle_fleet,
       [DescribeAutoScalingGroups ["web"]]).
Proof.
  destruct (main_under_capacity Sim.aws "ecs" "web" 4 Sim.idle_fleet
              (Sim.group "web" 3) Sim.idle_fleet eq_refl eq_refl)
    as (_ & Hmain & _).
  exact Hmain.
Defined.

(** Capacity three, three requested. *)
Lemma main_nothing_to_do_witness :
  main Sim.aws "ecs" "web" 3 Sim.idle_fleet
    = (Raise (SystemExit None), Sim.idle_fleet, [DescribeAutoScalingGroups ["web"]]).
Proof.
  destruct (main_nothing_to_do Sim.aws "ecs" "web" 3 Sim.idle_fleet
              (Sim.group "web" 3) Sim.idle_fleet eq_refl eq_refl)
    as (Hmain & _).
  exact Hmain.
Defined.

(** A name no group has, and a name two groups have. *)
Lemma get_change_group_lookup_errors_witness :
  outcome (main Sim.aws "ecs" "db" 1 Sim.twin_fleet)
    = Raise (ValueError "Unable to find Auto Scaling Group") /\
  outcome (main Sim.aws "ecs" "web" 1 Sim.twin_fleet)
    = Raise (ValueError "More than one Auto Scaling Group was found").
Proof.
  split.
  - destruct (get_change_group_lookup_errors Sim.aws "ecs" "db" 1 Sim.twin_fleet)
      as (Hnone & _ & _).
    destruct (Hnone Sim.twin_fleet eq_refl) as (_ & Hmain).
    rewrite Hmain. reflexivity.
  - destruct (get_change_group_lookup_errors Sim.aws "ecs" "web" 1 Sim.twin_fleet)
      as (_ & Hmany & _).
    destruct (Hmany (Sim.group "web" 3) (Sim.group "web" 5) [] Sim.twin_fleet eq_refl)
      as (_ & Hmain).
    rewrite Hmain. reflexivity.
Defined.

(** Capacity three against a request of one: the check raises the mismatch
    error. *)
Lemma verify_raises_mismatch_iff_positive_witness :
  outcome (verify Sim.aws "web" 1 Sim.idle_fleet) = Raise (RuntimeError mismatch_message).
Proof.
  destruct (verify_raises_mismatch_iff_positive Sim.aws "web" 1 Sim.idle_fleet)
    as ((_ & Hpos) & _ & _).
  apply Hpos. exists (Sim.group "web" 3), Sim.idle_fleet.
  split; reflexivity.
Defined.

(** C4: on a fleet whose oldest node keeps running two tasks, every poll of
    the selected nodes reports running tasks and leaves the world as it is,
    yet the run does not end in the drain timeout error: it ends in
    [NameError] for [sleep] after the first poll.  No termination request is
    sent. *)
Theorem main_busy_fleet_name_error_not_timeout :
  let run := main Sim.aws "ecs" "web" 1 Sim.busy_fleet in
  (exists descriptions,
      describe_container_instances Sim.aws "ecs" ["i-a"; "i-b"] (final run)
        = (Success descriptions, final run) /\
      forallb (fun instance => runningTasksCount instance =? 0) descriptions = false) /\
  outcome run = Raise (NameError "sleep") /\
  (forall seconds, outcome run <> Raise (RuntimeError (drain_timeout_message seconds))) /\
  filter is_describe_container_instances (trace run)
    = [DescribeContainerInstances "ecs" ["arn:i-c"; "arn:i-a"; "arn:i-b"];
       DescribeContainerInstances "ecs" ["i-a"; "i-b"]] /\
  existsb is_terminate (trace run) = false.
Proof.
  cbv zeta. split; [|split; [|split; [|split]]].
  - eexists. split; reflexivity.
  - reflexivity.
  - intros seconds H. vm_compute in H. discriminate.
  - reflexivity.
  - reflexivity.
Qed.

(** The authority refuses [i-a]: the loop ends there and [i-b], which it
    would have terminated, gets no request. *)
Lemma terminate_instance_skips_nodes_after_failure :
  ~ every_node_attempted Sim.aws ["i-a"; "i-b"] Sim.refusing_fleet.
Proof.
  intro H. specialize (H "i-b" (or_intror (or_introl eq_refl))).
  vm_compute in H. destruct H as [H|[]]. discriminate.
Qed.

(** What the loop does there instead. *)
Example terminate_instance_on_refusing_fleet :
  terminate_instance Sim.aws ["i-a"; "i-b"] Sim.refusing_fleet
    = (Raise (ClientError "ValidationError"), Sim.refusing_fleet,
       [terminate_request "i-a"]) /\
  outcome (terminate_instance Sim.aws ["i-b"] Sim.refusing_fleet) = Ok tt.
Proof. split; reflexivity. Qed.

(** * Further properties of the script *)

(** ** The selection *)

Section SortingUnique.
Context {A : Type} (key : A -> Z).

Lemma key_injective_on (l : list A) (a b : A) :
  NoDup (map key l) -> In a l -> In b l -> key a = key b -> a = b.
Proof.
  induction l as [|x l IH]; simpl; intros Hnd Ha Hb Hk; [contradiction|].
  inversion Hnd as [|? ? Hx Hl]; subst.
  destruct Ha as [<-|Ha], Hb as [<-|Hb]; auto.
  - exfalso. apply Hx. rewrite Hk. now apply in_map.
  - exfalso. apply Hx. rewrite <- Hk. now apply in_map.
Qed.

(** With pairwise different keys there is one ascending arrangement. *)
Lemma strongly_sorted_perm_unique (l1 l2 : list A) :
  StronglySorted (key_le key) l1 -> StronglySorted (key_le key) l2 ->
  Permutation l1 l2 -> NoDup (map key l1) -> l1 = l2.
Proof.
  intro H1. revert l2.
  induction H1 as [|a l1 Hs IH Ha]; intros l2 H2 Hp Hnd.
  - apply Permutation_nil in Hp. now subst.
  - destruct l2 as [|b l2].
    { apply Permutation_sym, Permutation_nil in Hp. discriminate. }
    inversion H2 as [|? ? Hs2 Hb]; subst.
    assert (Hab : a = b).
    { assert (Hin_b : In b (a :: l1)).
      { apply Permutation_in with (b :: l2); [now apply Permutation_sym|now left]. }
      assert (Hin_a : In a (b :: l2)).
      { apply Permutation_in with (a :: l1); [assumption|now left]. }
      apply key_injective_on with (l := a :: l1); auto; [now left|].
      rewrite Forall_forall in Ha, Hb. unfold key_le in *.
      destruct Hin_b as [->|Hin_b]; [reflexivity|].
      destruct Hin_a as [->|Hin_a]; [reflexivity|].
      specialize (Ha b Hin_b). specialize (Hb a Hin_a). lia. }
    subst b. f_equal.
    apply IH; auto.
    + eapply Permutation_cons_inv; eassumption.
    + simpl in Hnd. now inversion Hnd.
Qed.

Lemma sorted_perm_invariant (l l' : list A) :
  Permutation l l' -> NoDup (map key l) -> sorted l key = sorted l' key.
Proof.
  intros Hp Hnd.
  apply strongly_sorted_perm_unique.
  - apply sorted_sorted.
  - apply sorted_sorted.
  - apply perm_trans with l; [apply sorted_perm|].
    apply perm_trans with l'; [assumption|apply Permutation_sym, sorted_perm].
  - apply Permutation_NoDup with (map key l); [|assumption].
    apply Permutation_map, Permutation_sym, sorted_perm.
Qed.

Lemma slice_to_firstn (l : list A) (stop : Z) :
  exists n, slice_to l stop = firstn n l.
Proof.
  unfold slice_to. destruct (0 <=? stop); eexists; reflexivity.
Qed.

End SortingUnique.

(** X1: when the described instances have pairwise different registration
    times, the selection does not depend on the order in which the service
    lists them. *)
Theorem select_instances_listing_order_irrelevant
    (raw_instances raw_instances' : list ContainerInstance) (desired_change : Z) :
  Permutation raw_instances raw_instances' ->
  NoDup (map registeredAt raw_instances) ->
  select_instances raw_instances desired_change
  = select_instances raw_instances' desired_change.
Proof.
  intros Hp Hnd. unfold select_instances.
  rewrite (sorted_perm_invariant registeredAt _ _ Hp Hnd).
  reflexivity.
Qed.

Lemma select_instances_listing_order_irrelevant_witness :
  select_instances [Sim.node "i-c" 30 0; Sim.node "i-a" 10 0; Sim.node "i-b" 20 0] 2
  = select_instances [Sim.node "i-b" 20 0; Sim.node "i-c" 30 0; Sim.node "i-a" 10 0] 2.
Proof.
  apply select_instances_listing_order_irrelevant.
  - apply Permutation_sym, Permutation_cons_append.
  - repeat constructor; simpl; intuition discriminate.
Defined.

(** X2: asking for more nodes keeps the ones already chosen: the selection
    for a count is the beginning of the selection for any larger count. *)
Theorem select_instances_grows_by_appending
    (raw_instances : list ContainerInstance) (k k' : nat) :
  (k <= k')%nat ->
  exists more,
    select_instances raw_instances (Z.of_nat k')
    = select_instances raw_instances (Z.of_nat k) ++ more.
Proof.
  intro Hle. unfold select_instances. cbv zeta.
  rewrite !slice_to_count.
  set (l := sorted raw_instances registeredAt).
  exists (map ec2InstanceId (skipn k (firstn k' l))).
  rewrite <- map_app. f_equal.
  rewrite <- (firstn_skipn k (firstn k' l)) at 1.
  f_equal. rewrite firstn_firstn. f_equal. lia.
Qed.

Lemma select_instances_grows_by_appending_witness :
  exists more,
    select_instances (Sim.nodes Sim.idle_fleet) (Z.of_nat 3)
    = select_instances (Sim.nodes Sim.idle_fleet) (Z.of_nat 1) ++ more.
Proof.
  apply select_instances_grows_by_appending. lia.
Defined.

(** X3: whatever the count, every selected id is the [ec2InstanceId] of a
    described instance, no more ids are selected than instances were
    described, and when the described instances have pairwise different
    ids no id is selected twice. *)
Theorem select_instances_from_response
    (raw_instances : list ContainerInstance) (desired_change : Z) :
  incl (select_instances raw_instances desired_change)
       (map ec2InstanceId raw_instances) /\
  (List.length (select_instances raw_instances desired_change)
   <= List.length raw_instances)%nat /\
  (NoDup (map ec2InstanceId raw_instances) ->
   NoDup (select_instances raw_instances desired_change)).
Proof.
  unfold select_instances. cbv zeta.
  destruct (slice_to_firstn (sorted raw_instances registeredAt) desired_change)
    as [n ->].
  pose proof (sorted_perm registeredAt raw_instances) as Hp.
  split; [|split].
  - intros id Hin. apply in_map_iff in Hin. destruct Hin as (i & <- & Hi).
    apply in_map. apply (Permutation_in _ Hp).
    rewrite <- (firstn_skipn n (sorted raw_instances registeredAt)).
    apply in_or_app. now left.
  - rewrite length_map, length_firstn, (Permutation_length Hp). lia.
  - intro Hnd.
    assert (Hs : NoDup (map ec2InstanceId (sorted raw_instances registeredAt))).
    { apply Permutation_NoDup with (map ec2InstanceId raw_instances); [|assumption].
      apply Permutation_map, Permutation_sym, Hp. }
    rewrite <- (firstn_skipn n (sorted raw_instances registeredAt)), map_app in Hs.
    eapply NoDup_app_remove_r, Hs.
Qed.

Lemma select_instances_from_response_witness :
  NoDup (select_instances (Sim.nodes Sim.idle_fleet) 2).
Proof.
  apply (select_instances_from_response (Sim.nodes Sim.idle_fleet) 2).
  repeat constructor; simpl; intuition discriminate.
Defined.


(** ** Failures of the services *)

Section Failures.
Context {W : Type} (aws : Service W).

Lemma get_change_inv asg_name desired_count w r w1 t :
  get_change aws asg_name desired_count w = (r, w1, t) ->
  t = [DescribeAutoScalingGroups [asg_name]] /\
  ((exists code,
       describe_auto_scaling_groups aws [asg_name] w = (Failure code, w1) /\
       r = Raise (ClientError code))
   \/
   (exists asgs,
       describe_auto_scaling_groups aws [asg_name] w = (Success asgs, w1) /\
       forall code, r <> Raise (ClientError code))).
Proof.
  rewrite get_change_run. cbv zeta.
  destruct (describe_auto_scaling_groups aws [asg_name] w) as [[asgs|code] w'].
  - intro H.
    assert (Hr : t = [DescribeAutoScalingGroups [asg_name]] /\ w' = w1 /\
                 forall code, r <> Raise (ClientError code)).
    { destruct asgs as [|asg0 [|asg1 asgs]].
      - injection H as <- <- <-. repeat split. discriminate.
      - destruct (_ <? 0); [injection H as <- <- <-; repeat split; discriminate|].
        destruct (_ =? 0); injection H as <- <- <-; repeat split; discriminate.
      - injection H as <- <- <-. repeat split. discriminate. }
    destruct Hr as (-> & -> & Hr). split; [reflexivity|].
    right. exists asgs. split; [reflexivity|exact Hr].
  - intro H. injection H as <- <- <-. split; [reflexivity|].
    left. exists code. split; reflexivity.
Qed.

Lemma get_instances_to_remove_inv cluster_name desired_change w r w2 t :
  get_instances_to_remove aws cluster_name desired_change w = (r, w2, t) ->
  (exists code,
      list_container_instances aws cluster_name w = (Failure code, w2) /\
      r = Raise (ClientError code) /\
      t = [ListContainerInstances cluster_name])
  \/
  (exists arns w1 code,
      list_container_instances aws cluster_name w = (Success arns, w1) /\
      describe_container_instances aws cluster_name arns w1 = (Failure code, w2) /\
      r = Raise (ClientError code) /\
      t = [ListContainerInstances cluster_name;
           DescribeContainerInstances cluster_name arns])
  \/
  (exists arns w1 raw_instances,
      list_container_instances aws cluster_name w = (Success arns, w1) /\
      describe_container_instances aws cluster_name arns w1
        = (Success raw_instances, w2) /\
      r = Ok (select_instances raw_instances desired_change) /\
      t = [ListContainerInstances cluster_name;
           DescribeContainerInstances cluster_name arns]).
Proof.
  rewrite get_instances_to_remove_run. cbv zeta.
  destruct (list_container_instances aws cluster_name w) as [[arns|code] w1].
  - destruct (describe_container_instances aws cluster_name arns w1)
      as [[raw|code] w'] eqn:Hd; intro H; injection H as <- <- <-.
    + right. right. exists arns, w1, raw. repeat split. exact Hd.
    + right. left. exists arns, w1, code. repeat split. exact Hd.
  - intro H. injection H as <- <- <-. left. exists code. repeat split.
Qed.

Lemma drain_instances_inv cluster_name instances w r w3 t :
  drain_instances aws cluster_name instances w = (r, w3, t) ->
  (exists code,
      update_container_instances_state aws cluster_name instances "DRAINING" w
        = (Failure code, w3) /\
      r = Raise (ClientError code) /\
      t = [UpdateContainerInstancesState cluster_name instances "DRAINING"])
  \/
  (exists w' code,
      update_container_instances_state aws cluster_name instances "DRAINING" w
        = (Success tt, w') /\
      describe_container_instances aws cluster_name instances w'
        = (Failure code, w3) /\
      r = Raise (ClientError code) /\
      t = [UpdateContainerInstancesState cluster_name instances "DRAINING";
           DescribeContainerInstances cluster_name instances])
  \/
  (exists w' descriptions,
      update_container_instances_state aws cluster_name instances "DRAINING" w
        = (Success tt, w') /\
      describe_container_instances aws cluster_name instances w'
        = (Success descriptions, w3) /\
      (r = Ok tt \/ r = Raise (NameError "sleep")) /\
      t = [UpdateContainerInstancesState cluster_name instances "DRAINING";
           DescribeContainerInstances cluster_name instances]).
Proof.
  rewrite drain_instances_run. cbv zeta.
  destruct (update_container_instances_state aws cluster_name instances "DRAINING" w)
    as [[[]|code] w'].
  - destruct (describe_container_instances aws cluster_name instances w')
      as [[descs|code] w''] eqn:Hd.
    + intro H. right. right. exists w', descs.
      destruct (forallb _ descs); injection H as <- <- <-;
        (split; [reflexivity|]); (split; [exact Hd|]); split; auto.
    + intro H. injection H as <- <- <-. right. left. exists w', code.
      repeat split. exact Hd.
  - intro H. injection H as <- <- <-. left. exists code. repeat split.
Qed.

(** What [main] does once [get_change] has returned, in terms of the two
    later phases. *)
Lemma main_run_from cluster_name asg_name desired_count w change w1 t1 :
  get_change aws asg_name desired_count w = (Ok change, w1, t1) ->
  main aws cluster_name asg_name desired_count w =
  match get_instances_to_remove aws cluster_name change w1 with
  | (Raise e, w2, t2) => (Raise e, w2, t1 ++ t2)
  | (Ok instances, w2, t2) =>
      match drain_instances aws cluster_name instances w2 with
      | (Raise e, w3, t3) => (Raise e, w3, t1 ++ t2 ++ t3)
      | (Ok _, w3, t3) =>
          (Raise (NameError "terminate_instances"), w3, t1 ++ t2 ++ t3 ++ [])
      end
  end.
Proof. intro H1. rewrite main_run, H1. reflexivity. Qed.

(** X5: [main] catches nothing and retries nothing.  If the service
    answers any request that a run of [main] sends with an error, in the
    world in which that request goes out, the run ends there: its outcome
    is that [ClientError], its trace ends with the refused request, and
    it leaves the world the refusal left.  A run ends in a [ClientError] in
    no other way.  The requests [main_sends] speaks of are exactly the
    requests in the trace of the run, each with the requests before it. *)
Theorem main_client_error_is_last_request
    (cluster_name asg_name : string) (desired_count : Z) (w : W) :
  (forall earlier request w0 code,
      main_sends aws cluster_name asg_name desired_count w earlier request w0 ->
      failed_with aws request w0 code ->
      main aws cluster_name asg_name desired_count w
      = (Raise (ClientError code), world_after aws request w0,
         earlier ++ [request])) /\
  (forall code,
      outcome (main aws cluster_name asg_name desired_count w)
        = Raise (ClientError code) ->
      exists earlier request w0,
        main_sends aws cluster_name asg_name desired_count w earlier request w0 /\
        failed_with aws request w0 code) /\
  (forall earlier request,
      (exists w0,
          main_sends aws cluster_name asg_name desired_count w earlier request w0)
      <->
      (exists rest,
          trace (main aws cluster_name asg_name desired_count w)
          = earlier ++ request :: rest)).
Proof.
  split; [|split].
  - intros earlier request w0 code Hsends Hfail.
    destruct Hsends
      as [(-> & -> & ->)
         |[(change & t1 & H1 & -> & ->)
          |[(change & w1 & t1 & arns & H1 & Hl & -> & ->)
           |[(change & w1 & t1 & ids & t2 & H1 & H2 & -> & ->)
            |(change & w1 & t1 & ids & w2 & t2 & H1 & H2 & Hu & -> & ->)]]]];
      unfold failed_with in Hfail; unfold world_after.
    + rewrite main_run, get_change_run.
      destruct (describe_auto_scaling_groups aws [asg_name] w) as [r w'].
      simpl in Hfail. subst r. reflexivity.
    + rewrite (main_run_from _ _ _ _ _ _ _ H1), get_instances_to_remove_run.
      destruct (list_container_instances aws cluster_name w0) as [r w'].
      simpl in Hfail. subst r. reflexivity.
    + rewrite (main_run_from _ _ _ _ _ _ _ H1), get_instances_to_remove_run, Hl.
      cbv zeta.
      destruct (describe_container_instances aws cluster_name arns w0) as [r w'].
      simpl in Hfail. subst r. rewrite <- app_assoc. reflexivity.
    + rewrite (main_run_from _ _ _ _ _ _ _ H1), H2, drain_instances_run.
      cbv zeta.
      destruct (update_container_instances_state aws cluster_name ids "DRAINING" w0)
        as [r w'].
      simpl in Hfail. subst r. rewrite app_assoc. reflexivity.
    + rewrite (main_run_from _ _ _ _ _ _ _ H1), H2, drain_instances_run, Hu.
      cbv zeta.
      destruct (describe_container_instances aws cluster_name ids w0) as [r w'].
      simpl in Hfail. subst r. rewrite <- !app_assoc. reflexivity.
  - intros code Hout.
    destruct (get_change aws asg_name desired_count w) as [[r1 w1] t1] eqn:H1.
    destruct (get_change_inv _ _ _ _ _ _ H1) as [-> Hg].
    destruct r1 as [change|e].
    2: { rewrite main_run, H1 in Hout. unfold outcome in Hout. simpl in Hout.
         injection Hout as ->.
         destruct Hg as [(code' & Hd & Hr)|(asgs & _ & Hr)];
           [|now elim (Hr code)].
         injection Hr as ->.
         exists [], (DescribeAutoScalingGroups [asg_name]), w.
         split; [left; repeat split|].
         unfold failed_with. rewrite Hd. reflexivity. }
    rewrite (main_run_from _ _ _ _ _ _ _ H1) in Hout.
    destruct (get_instances_to_remove aws cluster_name change w1)
      as [[r2 w2] t2] eqn:H2.
    destruct (get_instances_to_remove_inv _ _ _ _ _ _ H2)
      as [(code' & Hl & -> & ->)
         |[(arns & w' & code' & Hl & Hd & -> & ->)
          |(arns & w' & raw & Hl & Hd & -> & ->)]].
    + unfold outcome in Hout. simpl in Hout. injection Hout as ->.
      exists [DescribeAutoScalingGroups [asg_name]],
             (ListContainerInstances cluster_name), w1.
      split.
      * right. left. exists change, [DescribeAutoScalingGroups [asg_name]].
        repeat split. exact H1.
      * unfold failed_with. rewrite Hl. reflexivity.
    + unfold outcome in Hout. simpl in Hout. injection Hout as ->.
      exists ([DescribeAutoScalingGroups [asg_name]]
              ++ [ListContainerInstances cluster_name]),
             (DescribeContainerInstances cluster_name arns), w'.
      split.
      * right. right. left.
        exists change, w1, [DescribeAutoScalingGroups [asg_name]], arns.
        repeat split; assumption.
      * unfold failed_with. rewrite Hd. reflexivity.
    + set (ids := select_instances raw change) in *.
      destruct (drain_instances aws cluster_name ids w2) as [[r3 w3] t3] eqn:H3.
      destruct (drain_instances_inv _ _ _ _ _ _ H3)
        as [(code' & Hu & -> & ->)
           |[(w'' & code' & Hu & Hp & -> & ->)
            |(w'' & descs & Hu & Hp & Hr & ->)]].
      * unfold outcome in Hout. simpl in Hout. injection Hout as ->.
        eexists. exists (UpdateContainerInstancesState cluster_name ids "DRAINING"), w2.
        split.
        -- right. right. right. left.
           exists change, w1, [DescribeAutoScalingGroups [asg_name]], ids.
           eexists. split; [exact H1|]. split; [exact H2|]. split; reflexivity.
        -- unfold failed_with. rewrite Hu. reflexivity.
      * unfold outcome in Hout. simpl in Hout. injection Hout as ->.
        eexists. exists (DescribeContainerInstances cluster_name ids), w''.
        split.
        -- right. right. right. right.
           exists change, w1, [DescribeAutoScalingGroups [asg_name]], ids, w2.
           eexists. split; [exact H1|]. split; [exact H2|].
           split; [exact Hu|]. split; reflexivity.
        -- unfold failed_with. rewrite Hp. reflexivity.
      * destruct Hr as [->| ->]; discriminate.
  - intros earlier request.
    destruct (get_change aws asg_name desired_count w) as [[r1 w1] t1] eqn:H1.
    destruct (get_change_inv _ _ _ _ _ _ H1) as [-> _].
    assert (Hfirst : main_sends aws cluster_name asg_name desired_count w
                       [] (DescribeAutoScalingGroups [asg_name]) w)
      by (left; repeat split).
    destruct r1 as [change|e].
    2: { rewrite main_run, H1. unfold trace. simpl. split.
         - intros [w0 Hs].
           destruct Hs
             as [(-> & -> & ->)
                |[(? & ? & H & _)|[(? & ? & ? & ? & H & _)
                 |[(? & ? & ? & ? & ? & H & _)|(? & ? & ? & ? & ? & ? & H & _)]]]];
             try (rewrite H1 in H; discriminate).
           eexists. reflexivity.
         - intros [rest H].
           destruct earlier as [|c0 earlier]; cbn [app] in H.
           + injection H as <- _. exists w. exact Hfirst.
           + injection H as _ H. destruct earlier; discriminate. }
    assert (Hsecond : main_sends aws cluster_name asg_name desired_count w
                        [DescribeAutoScalingGroups [asg_name]]
                        (ListContainerInstances cluster_name) w1).
    { right. left. exists change, [DescribeAutoScalingGroups [asg_name]].
      repeat split. exact H1. }
    rewrite (main_run_from _ _ _ _ _ _ _ H1).
    destruct (get_instances_to_remove aws cluster_name change w1)
      as [[r2 w2] t2] eqn:H2.
    destruct (get_instances_to_remove_inv _ _ _ _ _ _ H2)
      as [(code' & Hl & -> & ->)
         |[(arns & w' & code' & Hl & Hd & -> & ->)
          |(arns & w' & raw & Hl & Hd & -> & ->)]].
    + unfold trace. simpl. split.
      * intros [w0 Hs].
        destruct Hs
          as [(-> & -> & ->)
             |[(? & ? & H & -> & ->)|[(? & ? & ? & ? & H & Hl' & _)
              |[(? & ? & ? & ? & ? & H & H' & _)
               |(? & ? & ? & ? & ? & ? & H & H' & _)]]]];
          try (rewrite H1 in H; injection H as <- <- <-).
        -- eexists. reflexivity.
        -- eexists. reflexivity.
        -- rewrite Hl in Hl'. discriminate.
        -- rewrite H2 in H'. discriminate.
        -- rewrite H2 in H'. discriminate.
      * intros [rest H].
        destruct earlier as [|c0 earlier]; cbn [app] in H.
        { injection H as <- _. exists w. exact Hfirst. }
        injection H as <- H.
        destruct earlier as [|c1 earlier]; cbn [app] in H.
        { injection H as <- _. exists w1. exact Hsecond. }
        injection H as _ H. destruct earlier; discriminate.
    + assert (Hthird : main_sends aws cluster_name asg_name desired_count w
                         ([DescribeAutoScalingGroups [asg_name]]
                          ++ [ListContainerInstances cluster_name])
                         (DescribeContainerInstances cluster_name arns) w').
      { right. right. left.
        exists change, w1, [DescribeAutoScalingGroups [asg_name]], arns.
        repeat split; assumption. }
      unfold trace. simpl. split.
      * intros [w0 Hs].
        destruct Hs
          as [(-> & -> & ->)
             |[(? & ? & H & -> & ->)|[(? & ? & ? & ? & H & Hl' & -> & ->)
              |[(? & ? & ? & ? & ? & H & H' & _)
               |(? & ? & ? & ? & ? & ? & H & H' & _)]]]];
          try (rewrite H1 in H; injection H as <- <- <-).
        -- eexists. reflexivity.
        -- eexists. reflexivity.
        -- rewrite Hl in Hl'. injection Hl' as <- <-. eexists. reflexivity.
        -- rewrite H2 in H'. discriminate.
        -- rewrite H2 in H'. discriminate.
      * intros [rest H].
        destruct earlier as [|c0 earlier]; cbn [app] in H.
        { injection H as <- _. exists w. exact Hfirst. }
        injection H as <- H.
        destruct earlier as [|c1 earlier]; cbn [app] in H.
        { injection H as <- _. exists w1. exact Hsecond. }
        injection H as <- H.
        destruct earlier as [|c2 earlier]; cbn [app] in H.
        { injection H as <- _. exists w'. exact Hthird. }
        injection H as _ H. destruct earlier; discriminate.
    + set (ids := select_instances raw change) in *.
      assert (Hthird : main_sends aws cluster_name asg_name desired_count w
                         ([DescribeAutoScalingGroups [asg_name]]
                          ++ [ListContainerInstances cluster_name])
                         (DescribeContainerInstances cluster_name arns) w').
      { right. right. left.
        exists change, w1, [DescribeAutoScalingGroups [asg_name]], arns.
        repeat split; assumption. }
      assert (Hfourth : main_sends aws cluster_name asg_name desired_count w
                          ([DescribeAutoScalingGroups [asg_name]]
                           ++ [ListContainerInstances cluster_name;
                               DescribeContainerInstances cluster_name arns])
                          (UpdateContainerInstancesState cluster_name ids "DRAINING")
                          w2).
      { right. right. right. left.
        exists change, w1, [DescribeAutoScalingGroups [asg_name]], ids.
        eexists. split; [exact H1|]. split; [exact H2|]. split; reflexivity. }
      assert (Hearly :
                forall rest0,
                  (exists rest,
                      [DescribeAutoScalingGroups [asg_name];
                       ListContainerInstances cluster_name;
                       DescribeContainerInstances cluster_name arns;
                       UpdateContainerInstancesState cluster_name ids "DRAINING"]
                      ++ rest0 = earlier ++ request :: rest) ->
                  (exists w0, main_sends aws cluster_name asg_name desired_count w
                                earlier request w0) \/
                  (exists earlier', earlier
                     = [DescribeAutoScalingGroups [asg_name];
                        ListContainerInstances cluster_name;
                        DescribeContainerInstances cluster_name arns;
                        UpdateContainerInstancesState cluster_name ids "DRAINING"]
                       ++ earlier')).
      { intros rest0 [rest H].
        destruct earlier as [|c0 earlier]; cbn [app] in H.
        { injection H as <- _. left. exists w. exact Hfirst. }
        injection H as <- H.
        destruct earlier as [|c1 earlier]; cbn [app] in H.
        { injection H as <- _. left. exists w1. exact Hsecond. }
        injection H as <- H.
        destruct earlier as [|c2 earlier]; cbn [app] in H.
        { injection H as <- _. left. exists w'. exact Hthird. }
        injection H as <- H.
        destruct earlier as [|c3 earlier]; cbn [app] in H.
        { injection H as <- _. left. exists w2. exact Hfourth. }
        injection H as <- H.
        right. exists earlier. reflexivity. }
      destruct (drain_instances aws cluster_name ids w2) as [[r3 w3] t3] eqn:H3.
      assert (Hforward :
                forall w0,
                  main_sends aws cluster_name asg_name desired_count w
                    earlier request w0 ->
                  (exists w'' : W,
                      update_container_instances_state aws cluster_name ids
                        "DRAINING" w2 = (Success tt, w'')) \/
                  (exists rest,
                      [DescribeAutoScalingGroups [asg_name];
                       ListContainerInstances cluster_name;
                       DescribeContainerInstances cluster_name arns;
                       UpdateContainerInstancesState cluster_name ids "DRAINING"]
                      = earlier ++ request :: rest)).
      { intros w0 Hs.
        destruct Hs
          as [(-> & -> & ->)
             |[(? & ? & H & -> & ->)|[(? & ? & ? & ? & H & Hl' & -> & ->)
              |[(? & ? & ? & ? & ? & H & H' & -> & ->)
               |(? & ? & ? & ? & ? & ? & H & H' & Hu' & -> & ->)]]]];
          try (rewrite H1 in H; injection H as <- <- <-).
        - right. eexists. reflexivity.
        - right. eexists. reflexivity.
        - rewrite Hl in Hl'. injection Hl' as <- <-. right. eexists. reflexivity.
        - rewrite H2 in H'. injection H' as <- <- <-. right. eexists. reflexivity.
        - rewrite H2 in H'. injection H' as <- <- <-. left. eexists. exact Hu'. }
      destruct (drain_instances_inv _ _ _ _ _ _ H3)
        as [(code' & Hu & -> & ->)
           |[(w'' & code' & Hu & Hp & -> & ->)
            |(w'' & descs & Hu & Hp & Hr & ->)]].
      * unfold trace. simpl. split.
        -- intros [w0 Hs].
           destruct (Hforward w0 Hs) as [[w'' Hu']|[rest Hrest]].
           ++ rewrite Hu in Hu'. discriminate.
           ++ exists rest. exact Hrest.
        -- intros [rest H].
           destruct (Hearly [] (ex_intro _ rest H)) as [Hs|[earlier' ->]];
             [exact Hs|].
           cbn [app] in H. injection H as H.
           destruct earlier'; discriminate.
      * assert (Hfifth : main_sends aws cluster_name asg_name desired_count w
                           ([DescribeAutoScalingGroups [asg_name]]
                            ++ [ListContainerInstances cluster_name;
                                DescribeContainerInstances cluster_name arns]
                            ++ [UpdateContainerInstancesState cluster_name ids
                                  "DRAINING"])
                           (DescribeContainerInstances cluster_name ids) w'').
        { right. right. right. right.
          exists change, w1, [DescribeAutoScalingGroups [asg_name]], ids, w2.
          eexists. split; [exact H1|]. split; [exact H2|].
          split; [exact Hu|]. split; reflexivity. }
        unfold trace. simpl. split.
        -- intros [w0 Hs].
           destruct Hs
             as [(-> & -> & ->)
                |[(? & ? & H & -> & ->)|[(? & ? & ? & ? & H & Hl' & -> & ->)
                 |[(? & ? & ? & ? & ? & H & H' & -> & ->)
                  |(? & ? & ? & ? & ? & ? & H & H' & Hu' & -> & ->)]]]];
             try (rewrite H1 in H; injection H as <- <- <-);
             try (rewrite Hl in Hl'; injection Hl' as <- <-);
             try (rewrite H2 in H'; injection H' as <- <- <-);
             eexists; reflexivity.
        -- intros [rest H].
           destruct (Hearly [DescribeContainerInstances cluster_name ids]
                            (ex_intro _ rest H)) as [Hs|[earlier' ->]];
             [exact Hs|].
           cbn [app] in H. injection H as H.
           destruct earlier' as [|c4 earlier']; cbn [app] in H.
           { injection H as <- _. exists w''. exact Hfifth. }
           injection H as _ H. destruct earlier'; discriminate.
      * assert (Hfifth : main_sends aws cluster_name asg_name desired_count w
                           ([DescribeAutoScalingGroups [asg_name]]
                            ++ [ListContainerInstances cluster_name;
                                DescribeContainerInstances cluster_name arns]
                            ++ [UpdateContainerInstancesState cluster_name ids
                                  "DRAINING"])
                           (DescribeContainerInstances cluster_name ids) w'').
        { right. right. right. right.
          exists change, w1, [DescribeAutoScalingGroups [asg_name]], ids, w2.
          eexists. split; [exact H1|]. split; [exact H2|].
          split; [exact Hu|]. split; reflexivity. }
        assert (Htrace :
                  trace (match r3 with
                         | Ok _ => (@Raise unit (NameError "terminate_instances"), w3,
                                    [DescribeAutoScalingGroups [asg_name]]
                                    ++ [ListContainerInstances cluster_name;
                                        DescribeContainerInstances cluster_name arns]
                                    ++ [UpdateContainerInstancesState cluster_name ids
                                          "DRAINING";
                                        DescribeContainerInstances cluster_name ids]
                                    ++ [])
                         | Raise e => (Raise e, w3,
                                       [DescribeAutoScalingGroups [asg_name]]
                                       ++ [ListContainerInstances cluster_name;
                                           DescribeContainerInstances cluster_name arns]
                                       ++ [UpdateContainerInstancesState cluster_name
                                             ids "DRAINING";
                                           DescribeContainerInstances cluster_name ids])
                         end)
                  = [DescribeAutoScalingGroups [asg_name];
                     ListContainerInstances cluster_name;
                     DescribeContainerInstances cluster_name arns;
                     UpdateContainerInstancesState cluster_name ids "DRAINING";
                     DescribeContainerInstances cluster_name ids]).
        { destruct Hr as [->| ->]; reflexivity. }
        rewrite Htrace. split.
        -- intros [w0 Hs].
           destruct Hs
             as [(-> & -> & ->)
                |[(? & ? & H & -> & ->)|[(? & ? & ? & ? & H & Hl' & -> & ->)
                 |[(? & ? & ? & ? & ? & H & H' & -> & ->)
                  |(? & ? & ? & ? & ? & ? & H & H' & Hu' & -> & ->)]]]];
             try (rewrite H1 in H; injection H as <- <- <-);
             try (rewrite Hl in Hl'; injection Hl' as <- <-);
             try (rewrite H2 in H'; injection H' as <- <- <-);
             eexists; reflexivity.
        -- intros [rest H].
           destruct (Hearly [DescribeContainerInstances cluster_name ids]
                            (ex_intro _ rest H)) as [Hs|[earlier' ->]];
             [exact Hs|].
           cbn [app] in H. injection H as H.
           destruct earlier' as [|c4 earlier']; cbn [app] in H.
           { injection H as <- _. exists w''. exact Hfifth. }
           injection H as _ H. destruct earlier'; discriminate.
Qed.

End Failures.

(** A cluster without container instances: the describe request on line 46
    names none, the service rejects it, and the run ends there. *)
Lemma main_client_error_is_last_request_witness :
  main Ledger.aws "default" "web" 1 5
  = (Raise (ClientError "InvalidParameterException"), 5,
     [DescribeAutoScalingGroups ["web"];
      ListContainerInstances "default";
      DescribeContainerInstances "default" []]).
Proof.
  apply (proj1 (main_client_error_is_last_request Ledger.aws "default" "web" 1 5)
               ([DescribeAutoScalingGroups ["web"]]
                ++ [ListContainerInstances "default"])
               (DescribeContainerInstances "default" []) 5
               "InvalidParameterException").
  - right. right. left.
    exists 4, 5, [DescribeAutoScalingGroups ["web"]], [].
    repeat split.
  - reflexivity.
Defined.

(** ** Outcomes and requests of a run *)

Section Runs.
Context {W : Type} (aws : Service W).

(** X6: [get_change] returns a value exactly when the read finds one group
    whose desired capacity is above the requested count; the value is the
    difference, so it is positive, and the read is the only request. *)
Theorem get_change_returns_reduction
    (asg_name : string) (desired_count : Z) (w : W)
    (change : Z) (w1 : W) (t : list call) :
  get_change aws asg_name desired_count w = (Ok change, w1, t) <->
  exists asg,
    describe_auto_scaling_groups aws [asg_name] w = (Success [asg], w1) /\
    change = DesiredCapacity asg - desired_count /\
    0 < change /\
    t = [DescribeAutoScalingGroups [asg_name]].
Proof.
  rewrite get_change_run. cbv zeta.
  destruct (describe_auto_scaling_groups aws [asg_name] w) as [[asgs|code] w'].
  2: { split; [discriminate|]. intros (asg & H & _). discriminate. }
  destruct asgs as [|asg0 [|asg1 asgs]].
  - split; [discriminate|]. intros (asg & H & _). discriminate.
  - destruct (Z.ltb_spec (DesiredCapacity asg0 - desired_count) 0) as [Hlt|Hge].
    { split; [discriminate|]. intros (asg & H & -> & Hpos & _).
      injection H as <- _. lia. }
    destruct (Z.eqb_spec (DesiredCapacity asg0 - desired_count) 0) as [Hz|Hnz].
    { split; [discriminate|]. intros (asg & H & -> & Hpos & _).
      injection H as <- _. lia. }
    split.
    + intro H. injection H as <- <- <-. exists asg0.
      repeat split. lia.
    + intros (asg & H & -> & _ & ->). injection H as <- <-. reflexivity.
  - split; [discriminate|]. intros (asg & H & _). discriminate.
Qed.

(** X7: a run of [main] ends with exit status zero exactly when its first
    read finds one group whose desired capacity already equals the
    requested count. *)
Theorem main_exit_zero_iff
    (cluster_name asg_name : string) (desired_count : Z) (w : W) :
  exit_status (outcome (main aws cluster_name asg_name desired_count w)) = 0 <->
  exists asg w1,
    describe_auto_scaling_groups aws [asg_name] w = (Success [asg], w1) /\
    DesiredCapacity asg = desired_count.
Proof.
  split.
  - intro Hexit.
    destruct (get_change aws asg_name desired_count w) as [[r1 w1] t1] eqn:H1.
    destruct r1 as [change|e].
    + rewrite (main_fails_past_get_change aws cluster_name _ _ _ _ _ _ H1) in Hexit.
      discriminate.
    + rewrite main_run, H1 in Hexit. unfold outcome in Hexit. simpl in Hexit.
      destruct (get_change_exit_zero aws _ _ _ _ _ _ H1 Hexit) as (asg & Hd & Hcap & _).
      exists asg, w1. split; assumption.
  - intros (asg & w1 & Hd & Hcap).
    rewrite main_run, get_change_run, Hd. cbv zeta.
    replace (DesiredCapacity asg - desired_count) with 0 by lia.
    reflexivity.
Qed.

(** X8: neither [main] nor the check on lines 16-19 ever returns: every
    run ends in an exception, [exit()] included.  For the check, the value
    [get_change] returns is never zero, so the test on line 16 holds
    whenever it is evaluated. *)
Theorem main_never_returns
    (cluster_name asg_name : string) (desired_count : Z) (w : W) :
  (exists e, outcome (main aws cluster_name asg_name desired_count w) = Raise e) /\
  (exists e, outcome (verify aws asg_name desired_count w) = Raise e).
Proof.
  split.
  - rewrite main_run.
    destruct (get_change aws asg_name desired_count w) as [[[change|e] w1] t1];
      [|eexists; reflexivity].
    destruct (get_instances_to_remove aws cluster_name change w1)
      as [[[ids|e] w2] t2]; [|eexists; reflexivity].
    destruct (drain_instances aws cluster_name ids w2) as [[[[]|e] w3] t3];
      eexists; reflexivity.
  - rewrite verify_run.
    destruct (get_change aws asg_name desired_count w) as [[[change|e] w1] t1] eqn:H1;
      [|eexists; reflexivity].
    pose proof (get_change_positive aws _ _ _ _ _ _ H1) as Hpos.
    destruct (Z.eqb_spec change 0); [lia|]. eexists. reflexivity.
Qed.

(** X9: the reads send no mutating request: not [get_change], not
    [get_instances_to_remove], not the check after termination. *)
Theorem reads_send_no_mutation
    (cluster_name asg_name : string) (desired_count desired_change : Z) (w : W) :
  existsb mutating (trace (get_change aws asg_name desired_count w)) = false /\
  existsb mutating
    (trace (get_instances_to_remove aws cluster_name desired_change w)) = false /\
  existsb mutating (trace (verify aws asg_name desired_count w)) = false.
Proof.
  assert (Hg : forall w', existsb mutating
                 (trace (get_change aws asg_name desired_count w')) = false).
  { intro w'. rewrite get_change_run. cbv zeta. repeat break_match; reflexivity. }
  split; [apply Hg|]. split.
  - rewrite get_instances_to_remove_run. cbv zeta. repeat break_match; reflexivity.
  - rewrite verify_run. specialize (Hg w).
    destruct (get_change aws asg_name desired_count w) as [[[change|e] w1] t1];
      [|exact Hg].
    unfold trace in *. simpl in *.
    destruct (negb _); simpl; rewrite app_nil_r; exact Hg.
Qed.


(** X11: when the group is above the requested count and both reads of the
    cluster succeed, the run asks to drain the instances that the selection
    picks from the described instances for the difference: their EC2
    instance ids, oldest first, and no more of them than the difference. *)
Theorem main_drains_selection
    (cluster_name asg_name : string) (desired_count : Z) (w : W)
    (asg : AutoScalingGroup) (w1 : W)
    (container_instance_arns : list string) (w2 : W)
    (raw_instances : list ContainerInstance) (w3 : W) :
  describe_auto_scaling_groups aws [asg_name] w = (Success [asg], w1) ->
  0 < DesiredCapacity asg - desired_count ->
  list_container_instances aws cluster_name w1
    = (Success container_instance_arns, w2) ->
  describe_container_instances aws cluster_name container_instance_arns w2
    = (Success raw_instances, w3) ->
  let instances :=
    select_instances raw_instances (DesiredCapacity asg - desired_count) in
  (exists rest,
      trace (main aws cluster_name asg_name desired_count w)
      = [DescribeAutoScalingGroups [asg_name];
         ListContainerInstances cluster_name;
         DescribeContainerInstances cluster_name container_instance_arns;
         UpdateContainerInstancesState cluster_name instances "DRAINING"]
        ++ rest) /\
  Z.of_nat (List.length instances) <= DesiredCapacity asg - desired_count.
Proof.
  intros Hd Hpos Hl Hr instances. split.
  - rewrite main_run, get_change_run, Hd. cbv zeta.
    destruct (Z.ltb_spec (DesiredCapacity asg - desired_count) 0); [lia|].
    destruct (Z.eqb_spec (DesiredCapacity asg - desired_count) 0); [lia|].
    rewrite get_instances_to_remove_run, Hl. cbv zeta. rewrite Hr.
    fold instances.
    rewrite drain_instances_run. cbv zeta.
    destruct (update_container_instances_state aws cluster_name instances
                "DRAINING" w3) as [[[]|code] w4]; [|eexists; reflexivity].
    destruct (describe_container_instances aws cluster_name instances w4)
      as [[descs|code] w5]; [|eexists; reflexivity].
    destruct (forallb _ descs); eexists; reflexivity.
  - subst instances. unfold select_instances, slice_to. cbv zeta.
    destruct (Z.leb_spec 0 (DesiredCapacity asg - desired_count)); [|lia].
    rewrite length_map, length_firstn. lia.
Qed.

End Runs.

(** ** Draining and terminating *)

Section Phases.
Context {W : Type} (aws : Service W).

(** X12: when the drain request succeeds and the first poll answers with
    descriptions that all show no running task, [drain_instances] returns
    after that one poll.  The descriptions are not matched against the
    requested instances: a response that leaves instances out, even an
    empty one, counts as drained. *)
Theorem drain_instances_idle_first_poll
    (cluster_name : string) (instances : list string) (w w1 : W)
    (descriptions : list ContainerInstance) (w2 : W) :
  update_container_instances_state aws cluster_name instances "DRAINING" w
    = (Success tt, w1) ->
  describe_container_instances aws cluster_name instances w1
    = (Success descriptions, w2) ->
  Forall (fun instance => runningTasksCount instance = 0) descriptions ->
  drain_instances aws cluster_name instances w
  = (Ok tt, w2,
     [UpdateContainerInstancesState cluster_name instances "DRAINING";
      DescribeContainerInstances cluster_name instances]).
Proof.
  intros Hu Hd Hidle. rewrite drain_instances_run, Hu, Hd. cbv zeta.
  assert (Hall : forallb (fun instance => runningTasksCount instance =? 0)
                         descriptions = true).
  { apply forallb_forall. rewrite Forall_forall in Hidle.
    intros i Hi. apply Z.eqb_eq, Hidle, Hi. }
  rewrite Hall. reflexivity.
Qed.

(** X13: terminating a list made of two parts is terminating the first
    part and then, if that did not fail, the second. *)
Theorem terminate_instance_app (first_part second_part : list string) (w : W) :
  terminate_instance aws (first_part ++ second_part) w
  = bind (terminate_instance aws first_part)
         (fun _ => terminate_instance aws second_part) w.
Proof.
  revert w. induction first_part as [|instance_id rest IH]; intro w.
  - simpl. unfold bind, ret.
    destruct (terminate_instance aws second_part w) as [[r w2] t2]. reflexivity.
  - cbn [app terminate_instance]. unfold bind at 1 2 3. unfold invoke.
    destruct (terminate_instance_in_auto_scaling_group aws instance_id true w)
      as [[[]|code] w1]; [|reflexivity].
    rewrite IH. unfold bind.
    destruct (terminate_instance aws rest w1) as [[[[]|e] w2] t2]; [|reflexivity].
    destruct (terminate_instance aws second_part w2) as [[r w3] t3].
    simpl. reflexivity.
Qed.

(** X14: for a service that lowers the desired capacity by one with every
    successful termination request and leaves it alone when it refuses
    one, a termination loop that returns has lowered the capacity by the
    number of instances, and one that fails has lowered it by the number of
    requests before the failing one, which is less than that. *)
Theorem terminate_instance_lowers_capacity
    (capacity : W -> Z) (instances : list string) (w : W) :
  (forall id w0 w1,
      terminate_instance_in_auto_scaling_group aws id true w0 = (Success tt, w1) ->
      capacity w1 = capacity w0 - 1) ->
  (forall id w0 code w1,
      terminate_instance_in_auto_scaling_group aws id true w0 = (Failure code, w1) ->
      capacity w1 = capacity w0) ->
  (outcome (terminate_instance aws instances w) = Ok tt ->
   capacity (final (terminate_instance aws instances w))
   = capacity w - Z.of_nat (List.length instances)) /\
  (forall e,
      outcome (terminate_instance aws instances w) = Raise e ->
      capacity (final (terminate_instance aws instances w))
      = capacity w - Z.of_nat (List.length (trace (terminate_instance aws instances w))) + 1
      /\ (List.length (trace (terminate_instance aws instances w))
          <= List.length instances)%nat).
Proof.
  intros Hdec Hkeep. revert w.
  induction instances as [|instance_id rest IH]; intro w.
  - split; [intros _; unfold final; cbn; lia|intros e H; discriminate].
  - cbn [terminate_instance]. unfold bind, invoke.
    destruct (terminate_instance_in_auto_scaling_group aws instance_id true w)
      as [[[]|code] w1] eqn:Hcall.
    + apply Hdec in Hcall. destruct (IH w1) as [IHok IHfail].
      destruct (terminate_instance aws rest w1) as [[r w2] t2].
      unfold outcome, final, trace in *.
      cbn [fst snd app List.length] in *.
      rewrite !Nat2Z.inj_succ.
      split.
      * intro Hr. rewrite (IHok Hr). lia.
      * intros e Hr. destruct (IHfail e Hr) as [Hcap Hlen]. split; lia.
    + apply Hkeep in Hcall. unfold outcome, final, trace.
      cbn [fst snd List.length].
      split; [discriminate|]. intros e _. split; lia.
Qed.

(** X15: when the cluster has no more instances than the reduction asks
    for, [get_instances_to_remove] raises nothing: it returns the ids of
    all described instances. *)
Theorem get_instances_to_remove_under_fulfilment
    (cluster_name : string) (desired_change : Z) (w : W)
    (container_instance_arns : list string) (w1 : W)
    (raw_instances : list ContainerInstance) (w2 : W) :
  list_container_instances aws cluster_name w
    = (Success container_instance_arns, w1) ->
  describe_container_instances aws cluster_name container_instance_arns w1
    = (Success raw_instances, w2) ->
  Z.of_nat (List.length raw_instances) <= desired_change ->
  exists instance_ids,
    get_instances_to_remove aws cluster_name desired_change w
      = (Ok instance_ids, w2,
         [ListContainerInstances cluster_name;
          DescribeContainerInstances cluster_name container_instance_arns]) /\
    Permutation instance_ids (map ec2InstanceId raw_instances).
Proof.
  intros Hl Hd Hfew.
  rewrite get_instances_to_remove_run, Hl. cbv zeta. rewrite Hd.
  eexists. split; [reflexivity|].
  pose proof (sorted_perm registeredAt raw_instances) as Hp.
  unfold select_instances, slice_to. cbv zeta.
  destruct (Z.leb_spec 0 desired_change); [|lia].
  rewrite firstn_all2 by (rewrite (Permutation_length Hp); lia).
  apply Permutation_map, Hp.
Qed.

End Phases.

(** ** The further properties on the simulated fleets *)

Lemma get_change_returns_reduction_witness :
  exists asg,
    DesiredCapacity asg - 1 = 2 /\
    describe_auto_scaling_groups Sim.aws ["web"] Sim.idle_fleet
      = (Success [asg], Sim.idle_fleet).
Proof.
  destruct (proj1 (get_change_returns_reduction
                     Sim.aws "web" 1 Sim.idle_fleet 2 Sim.idle_fleet
                     [DescribeAutoScalingGroups ["web"]]) eq_refl)
    as (asg & Hd & Hc & _).
  exists asg. split; [now rewrite <- Hc|exact Hd].
Defined.

Lemma main_exit_zero_iff_witness :
  exit_status (outcome (main Sim.aws "ecs" "web" 3 Sim.idle_fleet)) = 0.
Proof.
  apply (proj2 (main_exit_zero_iff Sim.aws "ecs" "web" 3 Sim.idle_fleet)).
  exists (Sim.group "web" 3), Sim.idle_fleet. split; reflexivity.
Defined.

Lemma main_drains_selection_witness :
  exists rest,
    trace (main Sim.aws "ecs" "web" 1 Sim.idle_fleet)
    = [DescribeAutoScalingGroups ["web"];
       ListContainerInstances "ecs";
       DescribeContainerInstances "ecs" ["arn:i-c"; "arn:i-a"; "arn:i-b"];
       UpdateContainerInstancesState "ecs" ["i-a"; "i-b"] "DRAINING"] ++ rest.
Proof.
  apply (main_drains_selection
           Sim.aws "ecs" "web" 1 Sim.idle_fleet
           (Sim.group "web" 3) Sim.idle_fleet
           ["arn:i-c"; "arn:i-a"; "arn:i-b"] Sim.idle_fleet
           (Sim.nodes Sim.idle_fleet) Sim.idle_fleet
           eq_refl eq_refl eq_refl eq_refl).
Defined.

(** The poll names an instance the cluster does not know: the response is
    empty and the drain phase returns. *)
Lemma drain_instances_idle_first_poll_witness :
  outcome (drain_instances Sim.aws "ecs" ["i-z"] Sim.busy_fleet) = Ok tt.
Proof.
  erewrite drain_instances_idle_first_poll.
  - reflexivity.
  - reflexivity.
  - reflexivity.
  - constructor.
Defined.

Lemma terminate_instance_lowers_capacity_witness :
  final (terminate_instance Ledger.aws ["i-a"; "i-b"; "i-c"] 5) = 2.
Proof.
  apply (terminate_instance_lowers_capacity
           Ledger.aws (fun w => w) ["i-a"; "i-b"; "i-c"] 5).
  - intros id w0 w1 H. injection H as <-. reflexivity.
  - intros id w0 code w1 H. discriminate.
  - reflexivity.
Defined.

(** Three nodes and a reduction of five. *)
Lemma get_instances_to_remove_under_fulfilment_witness :
  exists instance_ids,
    get_instances_to_remove Sim.aws "ecs" 5 Sim.idle_fleet
      = (Ok instance_ids, Sim.idle_fleet,
         [ListContainerInstances "ecs";
          DescribeContainerInstances "ecs" ["arn:i-c"; "arn:i-a"; "arn:i-b"]]) /\
    Permutation instance_ids ["i-c"; "i-a"; "i-b"].
Proof.
  apply (get_instances_to_remove_under_fulfilment
           Sim.aws "ecs" 5 Sim.idle_fleet
           ["arn:i-c"; "arn:i-a"; "arn:i-b"] Sim.idle_fleet
           (Sim.nodes Sim.idle_fleet) Sim.idle_fleet eq_refl eq_refl).
  simpl. lia.
Defined.

(** ** The check after termination is out of reach *)

Section Unreached.
Context {W : Type} (aws : Service W).



End Unreached.


(** ** The termination loop on the refusing fleet *)

(** The authority terminates [i-b] and refuses [i-a]: the loop ends at
    [i-a] and [i-c] gets no request. *)
Lemma terminate_instance_stops_at_first_failure_witness :
  terminate_instance Sim.aws ["i-b"; "i-a"; "i-c"] Sim.refusing_fleet
  = (Raise (ClientError "ValidationError"),
     final (terminate_instance Sim.aws ["i-b"] Sim.refusing_fleet),
     [terminate_request "i-b"; terminate_request "i-a"]).
Proof.
  eapply (proj1 (terminate_instance_stops_at_first_failure
                   Sim.aws ["i-b"; "i-a"; "i-c"] Sim.refusing_fleet)
                ["i-b"] "i-a" ["i-c"]).
  - reflexivity.
  - reflexivity.
  - reflexivity.
Defined.
